(** * Near-Earth objects and their close approaches (models.py)

    A shallow embedding of [models.py]: the two classes [NearEarthObject]
    and [CloseApproach], their constructors with the [isinstance] checks,
    the derived properties [fullname] and [time_str], and the [__str__] and
    [__repr__] renderings, over a small model of the Python values the
    constructors can receive. *)

From Stdlib Require Import ZArith String Ascii List Bool Lia.
From Stdlib Require Import DecimalString.
From Stdlib Require Import Floats.SpecFloat.
From ExtLib Require Import Structures.Monad Structures.MonadExc.
From ExtLib Require Import Data.Monads.EitherMonad.
Import ListNotations.
Import MonadNotation.

Local Open Scope string_scope.
Local Open Scope Z_scope.
Local Open Scope monad_scope.

(** ** Python values *)

Module Py.

(** A Python [float] is an IEEE 754 binary64 number: a NaN, an infinity, a
    signed zero or [(-1)^s * m * 2^e]. *)
Definition float := spec_float.

(** [float('nan')], the default of the numeric parameters. *)
Definition nan : float := S754_nan.

(** The values a caller can pass: [None], [bool], [int], [float], [str],
    [bytes], and an instance of a plain class of its own (named by the
    class) that derives from none of these. A [str] is a sequence of code
    points below 256. *)
Inductive value :=
| PyNone
| PyBool (b : bool)
| PyInt (z : Z)
| PyFloat (f : float)
| PyStr (s : string)
| PyBytes (s : string)
| PyObject (cls : string).

Inductive pytype := NoneType | bool_t | int_t | float_t | str_t | bytes_t
| class_t (cls : string).

Definition type_of (v : value) : pytype :=
  match v with
  | PyNone => NoneType
  | PyBool _ => bool_t
  | PyInt _ => int_t
  | PyFloat _ => float_t
  | PyStr _ => str_t
  | PyBytes _ => bytes_t
  | PyObject c => class_t c
  end.

Definition pytype_eqb (a b : pytype) : bool :=
  match a, b with
  | NoneType, NoneType | bool_t, bool_t | int_t, int_t
  | float_t, float_t | str_t, str_t | bytes_t, bytes_t => true
  | class_t c, class_t d => String.eqb c d
  | _, _ => false
  end.

(** [bool] is a subclass of [int]; the other types are unrelated. *)
Definition issubclass (a b : pytype) : bool :=
  pytype_eqb a b ||
  match a, b with bool_t, int_t => true | _, _ => false end.

(** [isinstance(v, (t1, ..., tn))]. *)
Definition isinstance (v : value) (ts : list pytype) : bool :=
  existsb (issubclass (type_of v)) ts.

(** The exceptions raised in this module and by the built-ins it calls. *)
Inductive exn :=
| TypeError (msg : string)
| ValueError (msg : string)
| OverflowError (msg : string)
| AttributeError (msg : string).

(** A computation that returns an [A] ([inr]) or raises ([inl]). *)
Abbreviation result := (sum exn).

(** [if not b: raise e]. *)
Definition unless (b : bool) (e : exn) : result unit :=
  if b then ret tt else raise e.

(** Truth value of a [str]: false exactly for the empty string. *)
Definition str_truthy (s : string) : bool :=
  match s with EmptyString => false | String _ _ => true end.

(** Truth value of an attribute that holds a [str] or [None]. *)
Definition opt_truthy (o : option string) : bool :=
  match o with None => false | Some s => str_truthy s end.

(** Truth value of a [float]: false exactly for the two zeros. *)
Definition float_truthy (f : float) : bool :=
  match f with S754_zero _ => false | _ => true end.

(** Truth value of any value, as [if v] tests it. *)
Definition truthy (v : value) : bool :=
  match v with
  | PyNone => false
  | PyBool b => b
  | PyInt z => negb (z =? 0)
  | PyFloat f => float_truthy f
  | PyStr s => str_truthy s
  | PyBytes s => str_truthy s
  | PyObject _ => true
  end.

(** The characters of a [str]. The constructors read them only from a value
    that passed [isinstance(v, str)]. *)
Definition text (v : value) : string :=
  match v with PyStr s => s | _ => "" end.

(** [f'{o}'] for an attribute that holds a [str] or [None]. *)
Definition str_ (o : option string) : string :=
  match o with None => "None" | Some s => s end.

(** The [=] specifier of an f-string, [f'{expr=...}']: the source text of
    the expression, an equals sign, then the rendered value. *)
Definition self_documenting (expr rendered : string) : string :=
  expr ++ "=" ++ rendered.

(** [v == s] for a [str] [s]: only an equal [str] compares equal; a value
    of another type is never equal to a string. *)
Definition eq_str (v : value) (s : string) : bool :=
  match v with
  | PyStr t => String.eqb t s
  | _ => false
  end.

End Py.

(** ** Floats: conversion from [int] and fixed-point formatting *)

Module PyFloat.
Import Py.

Definition prec : Z := 53.
Definition emax : Z := 1024.

(** The binary64 number nearest to the integer [z], ties to even. *)
Definition of_Z (z : Z) : float := binary_normalize prec emax z 0 false.

(** The binary64 number nearest to [a / b]: the value of a decimal literal
    such as [0.45], taken as [45 / 100]. *)
Definition of_ratio (a b : Z) : float := SFdiv prec emax (of_Z a) (of_Z b).

(** [float(z)] for an [int]: the nearest binary64 number, and
    [OverflowError] when that is out of range. *)
Definition float_of_int (z : Z) : result float :=
  match of_Z z with
  | S754_infinity _ => raise (OverflowError "int too large to convert to float")
  | f => ret f
  end.

(** [float(v)] for a real number [v]. The constructors call it on a value
    that passed [isinstance(v, (float, int))]; a [str] or [bytes] argument,
    which Python would parse, is outside this model. *)
Definition float_ (v : value) : result float :=
  match v with
  | PyFloat f => ret f
  | PyInt z => float_of_int z
  | PyBool b => float_of_int (if b then 1 else 0)
  | _ => raise (TypeError "float() argument must be a string or a real number")
  end.

(** [num / den] rounded to the nearest integer, ties to even ([den > 0]). *)
Definition round_half_even (num den : Z) : Z :=
  let q := num / den in
  match 2 * (num mod den) ?= den with
  | Lt => q
  | Gt => q + 1
  | Eq => if Z.even q then q else q + 1
  end.

(** [m * 2^e * 10^p] rounded to the nearest integer, ties to even. *)
Definition scaled (m : positive) (e : Z) (p : nat) : Z :=
  let num := Z.pos m * 10 ^ Z.of_nat p in
  if 0 <=? e then num * 2 ^ e else round_half_even num (2 ^ (- e)).

(** Decimal digits of a natural number. *)
Definition decimal (n : Z) : string :=
  NilZero.string_of_uint (N.to_uint (Z.to_N n)).

Fixpoint zeros (k : nat) : string :=
  match k with O => "" | S k' => String "0" (zeros k') end.

Definition pad_left (k : nat) (s : string) : string :=
  zeros (k - String.length s) ++ s.

(** [n / 10^p] written with exactly [p] digits after the point. *)
Definition fixed (n : Z) (p : nat) : string :=
  match p with
  | O => decimal n
  | _ => decimal (n / 10 ^ Z.of_nat p) ++ "." ++
         pad_left p (decimal (n mod 10 ^ Z.of_nat p))
  end.

Definition sign (s : bool) : string := if s then "-" else "".

(** [format(f, '.<p>f')] for a [float]: correctly rounded, [nan] and [inf]
    spelled out, the sign of a negative zero kept. *)
Definition format_f_float (p : nat) (f : float) : string :=
  match f with
  | S754_nan => "nan"
  | S754_infinity s => sign s ++ "inf"
  | S754_zero s => sign s ++ fixed 0 p
  | S754_finite s m e => sign s ++ fixed (scaled m e p) p
  end.

(** [format(v, '.<p>f')]: a [float] is formatted directly, an [int] (and a
    [bool], through [int.__format__]) is converted to [float] first, a
    [str] rejects the format code, every other type the format string. *)
Definition format_f (p : nat) (v : value) : result string :=
  match v with
  | PyFloat f => ret (format_f_float p f)
  | PyInt z => f <- float_of_int z ;; ret (format_f_float p f)
  | PyBool b => f <- float_of_int (if b then 1 else 0) ;; ret (format_f_float p f)
  | PyStr _ => raise (ValueError "Unknown format code 'f' for object of type 'str'")
  | _ => raise (TypeError "unsupported format string passed to __format__")
  end.

End PyFloat.

(** ** repr of the values the renderings show *)

Module PyRepr.

Definition quote1 : ascii := "039"%char.
Definition quote2 : ascii := "034"%char.
Definition backslash : ascii := "092"%char.

Fixpoint contains (c : ascii) (s : string) : bool :=
  match s with
  | EmptyString => false
  | String d r => Ascii.eqb c d || contains c r
  end.

Definition hex_digit (n : nat) : ascii :=
  if (n <? 10)%nat then ascii_of_nat (48 + n) else ascii_of_nat (87 + n).

(** [str.isprintable] on the code points below 256: the controls, the
    no-break space and the soft hyphen are not printable. *)
Definition printable (c : ascii) : bool :=
  let n := nat_of_ascii c in
  ((32 <=? n) && (n <? 127) || (161 <=? n) && negb (n =? 173))%nat.

Definition escape (quote c : ascii) : string :=
  let n := nat_of_ascii c in
  if Ascii.eqb c quote || Ascii.eqb c backslash then String backslash (String c "")
  else if (n =? 9)%nat then String backslash "t"
  else if (n =? 10)%nat then String backslash "n"
  else if (n =? 13)%nat then String backslash "r"
  else if printable c then String c ""
  else String backslash
         (String "x" (String (hex_digit (n / 16)) (String (hex_digit (n mod 16)) ""))).

Fixpoint escape_all (quote : ascii) (s : string) : string :=
  match s with
  | EmptyString => ""
  | String c r => escape quote c ++ escape_all quote r
  end.

(** [repr(s)] for a [str]: single quotes, unless the text has a single
    quote and no double quote. *)
Definition repr_str (s : string) : string :=
  let quote := if contains quote1 s && negb (contains quote2 s) then quote2 else quote1 in
  String quote (escape_all quote s ++ String quote "").

(** [repr] of an attribute that holds a [str] or [None]. *)
Definition repr_opt (o : option string) : string :=
  match o with None => "None" | Some s => repr_str s end.

Definition repr_bool (b : bool) : string := if b then "True" else "False".

End PyRepr.

(** ** helpers: the two time conversions *)

Module Helpers.
Import Py.

(** A calendar timestamp with minute precision. *)
Record datetime := {
  year : nat;
  month : nat;
  day : nat;
  hour : nat;
  minute : nat
}.

Definition digit (c : ascii) : option nat :=
  let n := nat_of_ascii c in
  if ((48 <=? n) && (n <=? 57))%nat then Some (n - 48)%nat else None.

Definition digit_char (n : nat) : ascii := ascii_of_nat (48 + n).

Definition num2 (a b : ascii) : option nat :=
  match digit a, digit b with
  | Some x, Some y => Some (10 * x + y)%nat
  | _, _ => None
  end.

Definition num4 (a b c d : ascii) : option nat :=
  match num2 a b, num2 c d with
  | Some h, Some l => Some (100 * h + l)%nat
  | _, _ => None
  end.

(** Two digits, zero-padded ([n < 100]). *)
Definition pad2 (n : nat) : string :=
  String (digit_char (n / 10)) (String (digit_char (n mod 10)) "").

(** Four digits, zero-padded ([n < 10000]). *)
Definition pad4 (n : nat) : string := pad2 (n / 100) ++ pad2 (n mod 100).

Definition is_leap (y : nat) : bool :=
  ((y mod 4 =? 0) && (negb (y mod 100 =? 0) || (y mod 400 =? 0)))%nat.

Definition days_in_month (y m : nat) : nat :=
  match m with
  | 2 => if is_leap y then 29 else 28
  | 4 | 6 | 9 | 11 => 30
  | _ => 31
  end%nat.

(** The fields name a minute of the calendar, years 1 to 9999. *)
Definition valid_fields (y m d h mi : nat) : bool :=
  ((1 <=? y) && (1 <=? m) && (m <=? 12) && (1 <=? d) &&
   (d <=? days_in_month y m) && (h <=? 23) && (mi <=? 59))%nat.

Definition malformed : exn :=
  ValueError "time data does not match format 'YYYY-MM-DD HH:MM'".

(** Modelled from the spec: [cd_to_datetime] of [helpers.py], which is not
    among the sources. It accepts a string in the fixed format
    ["YYYY-MM-DD HH:MM"] (24-hour, no seconds), returns the calendar
    timestamp it names, and fails on malformed input. *)
Definition cd_to_datetime (s : string) : result datetime :=
  match list_ascii_of_string s with
  | [y1; y2; y3; y4; s1; m1; m2; s2; d1; d2; s3; h1; h2; s4; n1; n2] =>
      if Ascii.eqb s1 "-" && Ascii.eqb s2 "-" && Ascii.eqb s3 " " && Ascii.eqb s4 ":"
      then
        match num4 y1 y2 y3 y4, num2 m1 m2, num2 d1 d2, num2 h1 h2, num2 n1 n2 with
        | Some y, Some m, Some d, Some h, Some mi =>
            if valid_fields y m d h mi
            then ret {| year := y; month := m; day := d; hour := h; minute := mi |}
            else raise malformed
        | _, _, _, _, _ => raise malformed
        end
      else raise malformed
  | _ => raise malformed
  end.

(** Modelled from the spec: [datetime_to_str] of [helpers.py], which is not
    among the sources. It renders a timestamp in exactly the format
    ["YYYY-MM-DD HH:MM"], with no seconds. *)
Definition datetime_to_str (t : datetime) : string :=
  pad4 (year t) ++ "-" ++ pad2 (month t) ++ "-" ++ pad2 (day t) ++ " " ++
  pad2 (hour t) ++ ":" ++ pad2 (minute t).

End Helpers.

(** ** models.py *)

Module Models.
Import Py PyFloat PyRepr Helpers.

(** The attributes of the two classes. [diameter] holds the argument as it
    was given; [neo] is [None] or a [NearEarthObject]. *)
Inductive NearEarthObject := Build_NearEarthObject {
  designation : option string;
  name : option string;
  diameter : value;
  hazardous : bool;
  approaches : list CloseApproach
}
with CloseApproach := Build_CloseApproach {
  _designation : option string;
  time : option datetime;
  distance : float;
  velocity : float;
  neo : option NearEarthObject
}.

(** [NearEarthObject.__init__]. *)
Definition NearEarthObject_init (designation name diameter hazardous : value)
  : result NearEarthObject :=
  unless (isinstance designation [str_t])
    (TypeError "'designation' must be a string.") ;;
  unless (isinstance name [str_t])
    (TypeError "'name' must be a string.") ;;
  unless (isinstance diameter [float_t; int_t])
    (TypeError "'diameter' must be a number.") ;;
  unless (isinstance hazardous [bool_t; str_t])
    (TypeError "'hazardous' must be True/False.") ;;
  ret {| designation := if truthy designation then Some (text designation) else None;
         name := if truthy name then Some (text name) else None;
         diameter := diameter;
         hazardous := eq_str hazardous "Y";
         approaches := [] |}.

(** The four type checks of [NearEarthObject.__init__] together. *)
Definition NearEarthObject_well_typed (designation name diameter hazardous : value) : bool :=
  isinstance designation [str_t] && isinstance name [str_t] &&
  isinstance diameter [float_t; int_t] && isinstance hazardous [bool_t; str_t].

(** [NearEarthObject()] with every argument left at its default. *)
Definition NearEarthObject_default : result NearEarthObject :=
  NearEarthObject_init (PyStr "") (PyStr "") (PyFloat nan) (PyStr "").

(** The property [NearEarthObject.fullname]. *)
Definition fullname (self : NearEarthObject) : string :=
  if opt_truthy (name self)
  then str_ (designation self) ++ " (" ++ str_ (name self) ++ ")"
  else str_ (designation self).

(** [NearEarthObject.__str__]. *)
Definition NearEarthObject_str (self : NearEarthObject) : result string :=
  if hazardous self
  then
    d <- format_f 3 (diameter self) ;;
    ret ("NEO " ++ fullname self ++ " has a diameter of " ++ d ++
         " km and is potentially hazardous.")
  else
    d <- format_f 3 (diameter self) ;;
    ret ("NEO " ++ fullname self ++ " has a diameter of " ++ d ++
         " km and is not potentially hazardous.").

(** [NearEarthObject.__repr__]. *)
Definition NearEarthObject_repr (self : NearEarthObject) : result string :=
  d <- format_f 3 (diameter self) ;;
  ret ("NearEarthObject(" ++
       self_documenting "self.designation" (repr_opt (designation self)) ++ ", " ++
       self_documenting "self.name" (repr_opt (name self)) ++ ", " ++
       self_documenting "self.diameter" d ++ ", " ++
       self_documenting "self.hazardous" (repr_bool (hazardous self)) ++ ")").

(** [CloseApproach.__init__]. *)
Definition CloseApproach_init (designation time distance velocity : value)
  (neo : option NearEarthObject) : result CloseApproach :=
  unless (isinstance designation [str_t])
    (TypeError "'designation' must be a string.") ;;
  unless (isinstance time [str_t])
    (TypeError "'time' must be a string in the following format; 'yyyy-mm-dd HH:MM'.") ;;
  unless (isinstance velocity [float_t; int_t])
    (TypeError "'velocity' must be a number.") ;;
  unless (isinstance distance [float_t; int_t])
    (TypeError "'distance' must be a number.") ;;
  t <- (if truthy time
        then t <- cd_to_datetime (text time) ;; ret (Some t)
        else ret None) ;;
  d <- float_ distance ;;
  v <- float_ velocity ;;
  ret {| _designation := if truthy designation then Some (text designation) else None;
         time := t;
         distance := d;
         velocity := v;
         neo := neo |}.

(** The four type checks of [CloseApproach.__init__] together. *)
Definition CloseApproach_well_typed (designation time distance velocity : value) : bool :=
  isinstance designation [str_t] && isinstance time [str_t] &&
  isinstance velocity [float_t; int_t] && isinstance distance [float_t; int_t].

(** [CloseApproach()] with every argument left at its default. *)
Definition CloseApproach_default : result CloseApproach :=
  CloseApproach_init (PyStr "") (PyStr "") (PyFloat nan) (PyFloat nan) None.

(** The property [CloseApproach.time_str]. A [datetime] is always true, so
    [if self.time] tests for [None]. *)
Definition time_str (self : CloseApproach) : string :=
  match time self with
  | Some t => datetime_to_str t
  | None => ""
  end.

(** [self.neo.fullname]: [None] has no such attribute. *)
Definition neo_fullname (self : CloseApproach) : result string :=
  match neo self with
  | Some o => ret (fullname o)
  | None => raise (AttributeError "'NoneType' object has no attribute 'fullname'")
  end.

(** [CloseApproach.__str__]. *)
Definition CloseApproach_str (self : CloseApproach) : result string :=
  n <- neo_fullname self ;;
  ret ("On " ++ time_str self ++ ", '" ++ n ++ "' approaches Earth at a distance " ++
       "of " ++ self_documenting "self.distance" (format_f_float 2 (distance self)) ++
       " au and a velocity of " ++
       self_documenting "self.velocity" (format_f_float 2 (velocity self)) ++ " km/s.").

(** [repr(self.neo)]. *)
Definition neo_repr (self : CloseApproach) : result string :=
  match neo self with
  | Some o => NearEarthObject_repr o
  | None => ret "None"
  end.

(** [CloseApproach.__repr__]. *)
Definition CloseApproach_repr (self : CloseApproach) : result string :=
  n <- neo_repr self ;;
  ret ("CloseApproach(time=" ++ repr_str (time_str self) ++
       ", distance=" ++ format_f_float 2 (distance self) ++
       ", velocity=" ++ format_f_float 2 (velocity self) ++
       ", neo=" ++ n ++ ")").

(** The sentence the specification gives for [CloseApproach.__str__], in its
    words: "On <time_str>, '<neo.fullname>' approaches Earth at a distance of
    <distance to 2 decimals> au and a velocity of <velocity to 2 decimals>
    km/s." *)
Definition CloseApproach_sentence (self : CloseApproach) (o : NearEarthObject) : string :=
  "On " ++ time_str self ++ ", '" ++ fullname o ++
  "' approaches Earth at a distance of " ++ format_f_float 2 (distance self) ++
  " au and a velocity of " ++ format_f_float 2 (velocity self) ++ " km/s.".

End Models.

(** ** Sample objects *)

Module Samples.
Import Py PyFloat Helpers Models.

(** The worked example of the specification: 433 Eros and its approach of
    2020-06-01, with the literals [16.84], [0.45] and [7.2]. *)
Definition eros : NearEarthObject :=
  {| designation := Some "433"; name := Some "Eros";
     diameter := PyFloat (of_ratio 1684 100); hazardous := false;
     approaches := [] |}.

Definition approach : CloseApproach :=
  {| _designation := Some "433";
     time := Some {| year := 2020; month := 6; day := 1; hour := 0; minute := 0 |};
     distance := of_ratio 45 100; velocity := of_ratio 72 10;
     neo := Some eros |}.

(** [NearEarthObject('2015 CD3', 'Bruce', hazardous='Y')]. *)
Definition bruce : NearEarthObject :=
  {| designation := Some "2015 CD3"; name := Some "Bruce";
     diameter := PyFloat nan; hazardous := true; approaches := [] |}.

(** [NearEarthObject()]: every value missing. *)
Definition nameless : NearEarthObject :=
  {| designation := None; name := None; diameter := PyFloat nan;
     hazardous := false; approaches := [] |}.

(** [CloseApproach()]: every value missing, no object linked. *)
Definition unlinked : CloseApproach :=
  {| _designation := None; time := None; distance := nan; velocity := nan;
     neo := None |}.

(** [NearEarthObject('433', 'Eros', True, 'N')]: a [bool] for a diameter. *)
Definition pebble : NearEarthObject :=
  {| designation := Some "433"; name := Some "Eros";
     diameter := PyBool true; hazardous := false; approaches := [] |}.

(** [CloseApproach('433', '', 1, 7)]: [int]s for distance and velocity. *)
Definition flyby : CloseApproach :=
  {| _designation := Some "433"; time := None;
     distance := S754_finite false 4503599627370496 (-52);
     velocity := S754_finite false 7881299347898368 (-50);
     neo := None |}.

End Samples.

(** ** Texts that [repr] shows as they are *)

Module Quoting.
Import PyRepr.

(** No character of [s] needs an escape of its own: each is printable and
    none is a backslash. *)
Fixpoint unescaped (s : string) : bool :=
  match s with
  | EmptyString => true
  | String c r => printable c && negb (Ascii.eqb c backslash) && unescaped r
  end.

(** [repr] shows [s] between quotes with no escape at all: nothing needs an
    escape of its own, and the text does not hold both kinds of quote. *)
Definition verbatim (s : string) : bool :=
  unescaped s && negb (contains quote1 s && contains quote2 s).

(** The quote [repr] puts around a verbatim text. *)
Definition quote_of (s : string) : ascii :=
  if contains quote1 s then quote2 else quote1.

(** [s] between two quotes [q]. *)
Definition quoted (q : ascii) (s : string) : string :=
  String q (s ++ String q "").

(** Every character of [s] is a decimal digit. *)
Fixpoint all_digits (s : string) : bool :=
  match s with
  | EmptyString => true
  | String c r =>
      let n := nat_of_ascii c in ((48 <=? n) && (n <=? 57))%nat && all_digits r
  end.

(** [shown] is how a float is written with [p] digits after the point: a
    sign, at least one digit, the point and exactly [p] digits for a number;
    [nan] for a float that is not a number; [inf] with its sign for an
    infinite one. *)
Definition shown_as (p : nat) (f : Py.float) (shown : string) : Prop :=
  match f with
  | S754_nan => shown = "nan"
  | S754_infinity s => shown = PyFloat.sign s ++ "inf"
  | S754_zero s | S754_finite s _ _ =>
      exists whole frac,
        shown = PyFloat.sign s ++ whole ++ "." ++ frac /\
        whole <> "" /\ all_digits whole = true /\
        String.length frac = p /\ all_digits frac = true
  end.

End Quoting.

(** ** More sample objects *)

Module MoreSamples.
Import Py PyFloat Helpers Models.

(** [NearEarthObject('433', 'Eros', 2 ** 1024, 'N')]: an [int] diameter
    beyond the floats. *)
Definition giant : NearEarthObject :=
  {| designation := Some "433"; name := Some "Eros";
     diameter := PyInt (2 ^ 1024); hazardous := false; approaches := [] |}.

(** [CloseApproach('433', '', 0.45, 7.2, giant)]. *)
Definition giant_approach : CloseApproach :=
  {| _designation := Some "433"; time := None;
     distance := of_ratio 45 100; velocity := of_ratio 72 10;
     neo := Some giant |}.

(** [NearEarthObject('1I', "'Oumuamua", 0.2, 'N')]: a name with an
    apostrophe. *)
Definition oumuamua : NearEarthObject :=
  {| designation := Some "1I"; name := Some "'Oumuamua";
     diameter := PyFloat (of_ratio 2 10); hazardous := false;
     approaches := [] |}.

(** [NearEarthObject('None', '', nan, '')]: the designation is the text
    [None]. *)
Definition named_None : NearEarthObject :=
  {| designation := Some "None"; name := None; diameter := PyFloat nan;
     hazardous := false; approaches := [] |}.




End MoreSamples.

(** ** Properties *)

Import Py PyFloat PyRepr Helpers Models Samples Quoting MoreSamples.

(** What a successful [NearEarthObject.__init__] has checked and stored. *)
Lemma NearEarthObject_init_inr d n dia h o :
  NearEarthObject_init d n dia h = inr o ->
  isinstance d [str_t] = true /\ isinstance n [str_t] = true /\
  isinstance dia [float_t; int_t] = true /\
  isinstance h [bool_t; str_t] = true /\
  o = {| designation := if truthy d then Some (text d) else None;
         name := if truthy n then Some (text n) else None;
         diameter := dia;
         hazardous := eq_str h "Y";
         approaches := [] |}.
Proof.
  unfold NearEarthObject_init, unless.
  destruct (isinstance d [str_t]); [|discriminate].
  destruct (isinstance n [str_t]); [|discriminate].
  destruct (isinstance dia [float_t; int_t]); [|discriminate].
  destruct (isinstance h [bool_t; str_t]); [|discriminate].
  cbn. intros H. injection H as <-. repeat split.
Qed.

(** A value that passes [isinstance(v, str)] is a [str]. *)
Lemma isinstance_str v :
  isinstance v [str_t] = true -> exists s, v = PyStr s.
Proof.
  destruct v; cbn; try discriminate. intros _. now exists s.
Qed.

Lemma str_truthy_false s : str_truthy s = false <-> s = "".
Proof. destruct s; cbn; split; congruence. Qed.

Lemma str_truthy_true s : str_truthy s = true <-> s <> "".
Proof. destruct s; cbn; split; congruence. Qed.

(** *** A constructed near-Earth object *)

Section ConstructedNEO.

Variables designation0 name0 diameter0 hazardous0 : value.
Variable self : NearEarthObject.
Hypothesis constructed :
  NearEarthObject_init designation0 name0 diameter0 hazardous0 = inr self.

Lemma stored_designation :
  exists s, designation0 = PyStr s /\
            designation self = if str_truthy s then Some s else None.
Proof.
  destruct (NearEarthObject_init_inr _ _ _ _ _ constructed) as (Hd & _ & _ & _ & ->).
  destruct (isinstance_str _ Hd) as [s ->]. now exists s.
Qed.

Lemma stored_name :
  exists s, name0 = PyStr s /\ name self = if str_truthy s then Some s else None.
Proof.
  destruct (NearEarthObject_init_inr _ _ _ _ _ constructed) as (_ & Hn & _ & _ & ->).
  destruct (isinstance_str _ Hn) as [s ->]. now exists s.
Qed.


Lemma stored_hazardous : hazardous self = eq_str hazardous0 "Y".
Proof.
  now destruct (NearEarthObject_init_inr _ _ _ _ _ constructed) as (_ & _ & _ & _ & ->).
Qed.

End ConstructedNEO.

(** C1: the stored hazardous flag is true if and only if the raw hazardous
    input is the string "Y"; the inputs "N", the empty string, [True] and
    [False] all store false. *)
Theorem hazardous_iff_Y d n dia h self :
  NearEarthObject_init d n dia h = inr self ->
  (hazardous self = true <-> h = PyStr "Y") /\
  (In h [PyStr "N"; PyStr ""; PyBool true; PyBool false] ->
   hazardous self = false).
Proof.
  intros constructed. rewrite (stored_hazardous _ _ _ _ _ constructed). split.
  - destruct h as [ | b | z | f | s | s | c]; cbn [eq_str];
      try (split; discriminate).
    destruct (String.eqb_spec s "Y") as [-> | Hne]; split; try reflexivity;
      try discriminate.
    intros [= ->]. now elim Hne.
  - cbn [In]. intros [<- | [<- | [<- | [<- | []]]]]; reflexivity.
Qed.



Lemma hazardous_iff_Y_example :
  NearEarthObject_init (PyStr "2015 CD3") (PyStr "Bruce") (PyFloat nan) (PyStr "Y")
    = inr bruce /\
  (hazardous bruce = true <-> PyStr "Y" = PyStr "Y") /\
  (In (PyStr "Y") [PyStr "N"; PyStr ""; PyBool true; PyBool false] ->
   hazardous bruce = false).
Proof.
  split; [reflexivity|].
  apply (hazardous_iff_Y (PyStr "2015 CD3") (PyStr "Bruce") (PyFloat nan)).
  reflexivity.
Defined.



(** *** The two time conversions *)

Section TimeFormat.

Lemma digit_inv c n : digit c = Some n -> (n < 10)%nat /\ digit_char n = c.
Proof.
  destruct c as [[] [] [] [] [] [] [] []]; vm_compute; intros E;
    try discriminate E; injection E as <-; split; try reflexivity;
    repeat constructor.
Qed.

Lemma digit_digit_char n : (n < 10)%nat -> digit (digit_char n) = Some n.
Proof.
  intros H. do 10 (destruct n as [|n]; [reflexivity|]). lia.
Qed.

Lemma div_mod_base b q r :
  (r < b)%nat -> ((b * q + r) / b = q /\ (b * q + r) mod b = r)%nat.
Proof.
  intros H. split.
  - symmetry. now apply (Nat.div_unique _ b q r).
  - symmetry. now apply (Nat.mod_unique _ b q r).
Qed.

Lemma pad2_num2 a b n :
  num2 a b = Some n -> (n < 100)%nat /\ pad2 n = String a (String b "").
Proof.
  unfold num2.
  destruct (digit a) as [x|] eqn:Ea; [|discriminate].
  destruct (digit b) as [y|] eqn:Eb; [|discriminate].
  intros E. assert (En : n = (10 * x + y)%nat) by congruence. clear E.
  apply digit_inv in Ea as [Hx <-]. apply digit_inv in Eb as [Hy <-].
  split; [lia|]. unfold pad2. rewrite En.
  now destruct (div_mod_base 10 x y Hy) as [-> ->].
Qed.

Lemma pad4_num4 a b c d n :
  num4 a b c d = Some n ->
  (n < 100 * 100)%nat /\ pad4 n = String a (String b (String c (String d ""))).
Proof.
  unfold num4.
  destruct (num2 a b) as [h|] eqn:Eh; [|discriminate].
  destruct (num2 c d) as [l|] eqn:El; [|discriminate].
  intros E. assert (En : n = (100 * h + l)%nat) by congruence. clear E.
  apply pad2_num2 in Eh as [Hh Ph]. apply pad2_num2 in El as [Hl Pl].
  split; [lia|]. unfold pad4. rewrite En.
  destruct (div_mod_base 100 h l Hl) as [-> ->]. now rewrite Ph, Pl.
Qed.

Lemma num2_pad2 n :
  (n < 100)%nat ->
  num2 (digit_char (n / 10)) (digit_char (n mod 10)) = Some n.
Proof.
  intros H. unfold num2.
  assert (Hq : (n / 10 < 10)%nat) by (apply Nat.Div0.div_lt_upper_bound; lia).
  assert (Hr : (n mod 10 < 10)%nat) by (apply Nat.mod_upper_bound; lia).
  rewrite (digit_digit_char _ Hq), (digit_digit_char _ Hr).
  f_equal. symmetry. apply Nat.div_mod_eq.
Qed.

Lemma days_in_month_le y m : (days_in_month y m <= 31)%nat.
Proof.
  unfold days_in_month. destruct (is_leap y);
    do 12 (destruct m as [|m]; [cbn; lia|]); cbn; lia.
Qed.

(** Every minute of the calendar is written in a form the parser accepts,
    and is read back unchanged. *)
Lemma format_then_parse_identity t :
  valid_fields (year t) (month t) (day t) (hour t) (minute t) = true ->
  (year t < 100 * 100)%nat ->
  cd_to_datetime (datetime_to_str t) = inr t.
Proof.
  destruct t as [y m d h mi]. cbn [year month day hour minute].
  intros Hv Hy. pose proof Hv as Hv'. unfold valid_fields in Hv'.
  repeat (apply andb_prop in Hv' as [Hv' ?]).
  repeat match goal with H : (_ <=? _)%nat = true |- _ => apply Nat.leb_le in H end.
  assert (Hd : (d <= 31)%nat) by (pose proof (days_in_month_le y m); lia).
  assert (Hyh : (y / 100 < 100)%nat) by (apply Nat.Div0.div_lt_upper_bound; lia).
  assert (Hyl : (y mod 100 < 100)%nat) by (apply Nat.mod_upper_bound; lia).
  unfold datetime_to_str, pad4, pad2, cd_to_datetime.
  cbn [append list_ascii_of_string Ascii.eqb Bool.eqb andb
       year month day hour minute].
  unfold num4.
  rewrite !num2_pad2 by lia.
  rewrite <- (Nat.div_mod_eq y 100), Hv. reflexivity.
Qed.

(** Formatting what the parser returned gives the parsed string back. *)
Lemma format_of_parsed s t :
  cd_to_datetime s = inr t -> datetime_to_str t = s.
Proof.
  unfold cd_to_datetime. intros H.
  rewrite <- (string_of_list_ascii_of_string s).
  destruct (list_ascii_of_string s)
    as [|y1 [|y2 [|y3 [|y4 [|s1 [|m1 [|m2 [|s2 [|d1 [|d2 [|s3 [|h1 [|h2
       [|s4 [|n1 [|n2 [|x l]]]]]]]]]]]]]]]]]; try discriminate H.
  destruct (Ascii.eqb_spec s1 "-") as [-> | _]; [|discriminate H].
  destruct (Ascii.eqb_spec s2 "-") as [-> | _]; [|discriminate H].
  destruct (Ascii.eqb_spec s3 " ") as [-> | _]; [|discriminate H].
  destruct (Ascii.eqb_spec s4 ":") as [-> | _]; [|discriminate H].
  cbn [andb] in H.
  destruct (num4 y1 y2 y3 y4) as [y|] eqn:Ey; [|discriminate H].
  destruct (num2 m1 m2) as [m|] eqn:Em; [|discriminate H].
  destruct (num2 d1 d2) as [d|] eqn:Ed; [|discriminate H].
  destruct (num2 h1 h2) as [h|] eqn:Eh; [|discriminate H].
  destruct (num2 n1 n2) as [mi|] eqn:Emi; [|discriminate H].
  destruct (valid_fields y m d h mi); [|discriminate H].
  injection H as <-. unfold datetime_to_str. cbn [year month day hour minute].
  apply pad4_num4 in Ey as [_ ->]. apply pad2_num2 in Em as [_ ->].
  apply pad2_num2 in Ed as [_ ->]. apply pad2_num2 in Eh as [_ ->].
  apply pad2_num2 in Emi as [_ ->]. reflexivity.
Qed.

End TimeFormat.

(** *** A constructed close approach *)

(** The body of [CloseApproach.__init__] below its type checks. *)
Lemma CloseApproach_init_well_typed d t dist vel linked :
  CloseApproach_well_typed d t dist vel = true ->
  CloseApproach_init d t dist vel linked =
    (t' <- (if truthy t then dt <- cd_to_datetime (text t) ;; ret (Some dt)
            else ret None) ;;
     d' <- float_ dist ;;
     v' <- float_ vel ;;
     ret {| _designation := if truthy d then Some (text d) else None;
            time := t'; distance := d'; velocity := v'; neo := linked |}).
Proof.
  unfold CloseApproach_well_typed, CloseApproach_init, unless.
  destruct (isinstance d [str_t]); [|discriminate].
  destruct (isinstance t [str_t]); [|discriminate].
  destruct (isinstance vel [float_t; int_t]); [|discriminate].
  destruct (isinstance dist [float_t; int_t]); [|discriminate].
  reflexivity.
Qed.

(** A failed type check raises its [TypeError]. *)
Lemma CloseApproach_init_ill_typed d t dist vel linked :
  CloseApproach_well_typed d t dist vel = false ->
  exists msg, CloseApproach_init d t dist vel linked = inl (TypeError msg).
Proof.
  unfold CloseApproach_well_typed, CloseApproach_init, unless.
  destruct (isinstance d [str_t]); [|eexists; reflexivity].
  destruct (isinstance t [str_t]); [|eexists; reflexivity].
  destruct (isinstance vel [float_t; int_t]); [|eexists; reflexivity].
  destruct (isinstance dist [float_t; int_t]); [|eexists; reflexivity].
  discriminate.
Qed.

(** What a successful [CloseApproach.__init__] has checked and stored. *)
Lemma CloseApproach_init_inr d t dist vel linked self :
  CloseApproach_init d t dist vel linked = inr self ->
  CloseApproach_well_typed d t dist vel = true /\
  (if truthy t then exists dt, cd_to_datetime (text t) = inr dt /\ time self = Some dt
   else time self = None) /\
  float_ dist = inr (distance self) /\
  float_ vel = inr (velocity self) /\
  _designation self = (if truthy d then Some (text d) else None) /\
  neo self = linked.
Proof.
  destruct (CloseApproach_well_typed d t dist vel) eqn:W.
  - rewrite (CloseApproach_init_well_typed _ _ _ _ _ W).
    destruct (truthy t).
    + destruct (cd_to_datetime (text t)) as [e|dt]; [discriminate|].
      destruct (float_ dist) as [e|d']; [discriminate|].
      destruct (float_ vel) as [e|v']; [discriminate|].
      cbn. intros [= <-]. cbn. repeat split. now exists dt.
    + destruct (float_ dist) as [e|d']; [discriminate|].
      destruct (float_ vel) as [e|v']; [discriminate|].
      cbn. intros [= <-]. cbn. repeat split.
  - destruct (CloseApproach_init_ill_typed d t dist vel linked W) as [msg ->].
    discriminate.
Qed.

Section TimeStr.

Variable self : CloseApproach.

(** C7: [time_str] is the string [datetime_to_str] gives for the stored
    time when the time is present, and the empty string when it is absent. *)
Theorem time_str_present_or_empty :
  (forall t, time self = Some t -> time_str self = datetime_to_str t) /\
  (time self = None -> time_str self = "").
Proof.
  unfold time_str. split.
  - intros t ->. reflexivity.
  - intros ->. reflexivity.
Qed.

End TimeStr.

Lemma time_str_present_or_empty_example :
  time approach
    = Some {| year := 2020; month := 6; day := 1; hour := 0; minute := 0 |} /\
  time_str approach = "2020-06-01 00:00" /\
  time unlinked = None /\
  time_str unlinked = "".
Proof.
  destruct (time_str_present_or_empty approach) as [Hp _].
  destruct (time_str_present_or_empty unlinked) as [_ Ha].
  split; [reflexivity|]. split; [now rewrite (Hp _ eq_refl)|].
  split; [reflexivity|]. now apply Ha.
Defined.

(** The time string of a constructed approach is the raw time it was given,
    the empty string included. *)
Lemma time_str_of_constructed d s dist vel linked self :
  CloseApproach_init d (PyStr s) dist vel linked = inr self ->
  time_str self = s.
Proof.
  intros H. apply CloseApproach_init_inr in H as (_ & Ht & _).
  unfold time_str. cbn [truthy text] in Ht.
  destruct (str_truthy s) eqn:E.
  - destruct Ht as (dt & Hp & ->). now apply format_of_parsed.
  - rewrite Ht. symmetry. now apply str_truthy_false.
Qed.

(** C8: parsing a string with [cd_to_datetime] and formatting the result
    with [datetime_to_str] gives the original string back, for every string
    the parser accepts; so the [time_str] of an approach constructed from
    that string is the string itself. *)
Theorem parse_then_format_identity s t :
  cd_to_datetime s = inr t ->
  datetime_to_str t = s /\
  (forall d dist vel linked self,
     CloseApproach_init d (PyStr s) dist vel linked = inr self ->
     time self = Some t /\ time_str self = s).
Proof.
  intros Hp. split; [now apply format_of_parsed|].
  intros d dist vel linked self H.
  split; [|exact (time_str_of_constructed _ _ _ _ _ _ H)].
  apply CloseApproach_init_inr in H as (_ & Ht & _).
  cbn [truthy text] in Ht.
  destruct (str_truthy s) eqn:E.
  - destruct Ht as (dt & Hp' & ->). congruence.
  - apply str_truthy_false in E. subst s. discriminate Hp.
Qed.

Lemma parse_then_format_identity_example :
  cd_to_datetime "2020-01-01 12:30"
    = inr {| year := 2020; month := 1; day := 1; hour := 12; minute := 30 |} /\
  datetime_to_str {| year := 2020; month := 1; day := 1; hour := 12; minute := 30 |}
    = "2020-01-01 12:30".
Proof.
  split; [reflexivity|].
  now apply (parse_then_format_identity "2020-01-01 12:30").
Defined.

(** *** Stored numbers *)

(** The formatting agrees with Python on ties, on values just below a
    tie, on a negative value that rounds to zero, and on [nan] and [int]. *)
Example format_f_examples :
  format_f 2 (PyFloat (of_ratio 125 1000)) = inr "0.12" /\
  format_f 2 (PyFloat (of_ratio 375 1000)) = inr "0.38" /\
  format_f 2 (PyFloat (of_ratio 2675 1000)) = inr "2.67" /\
  format_f 2 (PyFloat (of_ratio (-1) 1000)) = inr "-0.00" /\
  format_f 3 (PyFloat nan) = inr "nan" /\
  format_f 3 (PyInt 5) = inr "5.000" /\
  format_f 3 (PyBool true) = inr "1.000" /\
  format_f 3 (PyInt (2 ^ 1024))
    = inl (OverflowError "int too large to convert to float").
Proof. repeat split; vm_compute; reflexivity. Qed.

(** The renderings of 433 Eros and of its approach. *)
Example eros_renderings :
  fullname eros = "433 (Eros)" /\
  NearEarthObject_str eros
    = inr "NEO 433 (Eros) has a diameter of 16.840 km and is not potentially hazardous." /\
  NearEarthObject_repr eros
    = inr ("NearEarthObject(self.designation='433', self.name='Eros', " ++
           "self.diameter=16.840, self.hazardous=False)") /\
  CloseApproach_repr approach
    = inr ("CloseApproach(time='2020-06-01 00:00', distance=0.45, " ++
           "velocity=7.20, neo=NearEarthObject(self.designation='433', " ++
           "self.name='Eros', self.diameter=16.840, self.hazardous=False))").
Proof. repeat split; vm_compute; reflexivity. Qed.

Lemma float_of_int_inr z f : float_of_int z = inr f -> f = of_Z z.
Proof.
  unfold float_of_int. destruct (of_Z z); [| discriminate | |];
    intros [= <-]; reflexivity.
Qed.

(** C9: [NearEarthObject] stores the diameter as it was given, so an [int]
    or a [bool] stays a non-float, while [CloseApproach] stores [float(x)]
    for the distance and the velocity, the nearest float of an [int]. *)
Theorem diameter_as_given_distance_converted
  d n dia h o cd t dist vel linked ca :
  NearEarthObject_init d n dia h = inr o ->
  CloseApproach_init cd t dist vel linked = inr ca ->
  diameter o = dia /\
  (isinstance dia [int_t] = true -> isinstance (diameter o) [float_t] = false) /\
  float_ dist = inr (distance ca) /\
  float_ vel = inr (velocity ca) /\
  (forall z, dist = PyInt z -> distance ca = of_Z z) /\
  (forall z, vel = PyInt z -> velocity ca = of_Z z).
Proof.
  intros Ho Hca.
  apply NearEarthObject_init_inr in Ho as (_ & _ & _ & _ & ->).
  apply CloseApproach_init_inr in Hca as (_ & _ & Hd & Hv & _).
  cbn [diameter]. repeat split; try assumption.
  - destruct dia; cbn; congruence.
  - intros z ->. now apply float_of_int_inr.
  - intros z ->. now apply float_of_int_inr.
Qed.

Lemma diameter_as_given_distance_converted_example :
  NearEarthObject_init (PyStr "433") (PyStr "Eros") (PyBool true) (PyStr "N")
    = inr pebble /\
  CloseApproach_init (PyStr "433") (PyStr "") (PyInt 1) (PyInt 7) None
    = inr flyby /\
  diameter pebble = PyBool true /\
  (isinstance (PyBool true) [int_t] = true ->
   isinstance (diameter pebble) [float_t] = false) /\
  float_ (PyInt 1) = inr (distance flyby) /\
  float_ (PyInt 7) = inr (velocity flyby) /\
  (forall z, PyInt 1 = PyInt z -> distance flyby = of_Z z) /\
  (forall z, PyInt 7 = PyInt z -> velocity flyby = of_Z z).
Proof.
  split; [reflexivity|]. split; [reflexivity|].
  apply (diameter_as_given_distance_converted
           (PyStr "433") (PyStr "Eros") (PyBool true) (PyStr "N") pebble
           (PyStr "433") (PyStr "") (PyInt 1) (PyInt 7) None flyby);
    reflexivity.
Defined.

(** *** Renderings *)

Lemma append_assoc (a b c : string) : (a ++ b) ++ c = a ++ b ++ c.
Proof. induction a as [|x a IH]; cbn; [reflexivity | now rewrite IH]. Qed.

(** [NearEarthObject.__str__] returns whenever the diameter can be
    formatted, and the sentence opens with the full name. *)
Lemma NearEarthObject_str_inr self s :
  NearEarthObject_str self = inr s ->
  exists d, format_f 3 (diameter self) = inr d /\
    s = "NEO " ++ fullname self ++ " has a diameter of " ++ d ++
        (if hazardous self then " km and is potentially hazardous."
         else " km and is not potentially hazardous.").
Proof.
  unfold NearEarthObject_str.
  destruct (hazardous self); destruct (format_f 3 (diameter self)) as [e|d];
    cbn; try discriminate; intros [= <-]; now exists d.
Qed.

(** The text [CloseApproach.__str__] returns for a linked approach. *)
Lemma CloseApproach_str_linked self o :
  neo self = Some o ->
  CloseApproach_str self =
    inr ("On " ++ time_str self ++ ", '" ++ fullname o ++
         "' approaches Earth at a distance of self.distance=" ++
         format_f_float 2 (distance self) ++
         " au and a velocity of self.velocity=" ++
         format_f_float 2 (velocity self) ++ " km/s.").
Proof.
  intros H. unfold CloseApproach_str, neo_fullname, self_documenting.
  rewrite H. cbn. rewrite ?append_assoc. reflexivity.
Qed.



Lemma append_cancel_l (a x y : string) : a ++ x = a ++ y -> x = y.
Proof. induction a as [|c a IH]; cbn; [trivial | intros [= H]; auto]. Qed.

Lemma decimal_head n : exists c r, decimal n = String c r /\ c <> "s"%char.
Proof.
  unfold decimal. destruct (N.to_uint (Z.to_N n)); cbn;
    eexists; eexists; (split; [reflexivity | discriminate]).
Qed.

(** A formatted float never starts with the letter [s]. *)
Lemma format_f_float_head f :
  exists c r, format_f_float 2 f = String c r /\ c <> "s"%char.
Proof.
  assert (F : forall s n, exists c r,
            sign s ++ fixed n 2 = String c r /\ c <> "s"%char).
  { intros [|] n; cbn [sign append].
    - eexists; eexists; split; [reflexivity | discriminate].
    - unfold fixed. destruct (decimal_head (n / 10 ^ Z.of_nat 2)) as (c & r & -> & Hc).
      cbn [append]. eexists; eexists; split; [reflexivity | exact Hc]. }
  destruct f as [s | s | | s m e]; cbn [format_f_float].
  - apply F.
  - destruct s; eexists; eexists; (split; [reflexivity | discriminate]).
  - eexists; eexists; split; [reflexivity | discriminate].
  - apply F.
Qed.

(** No linked approach is rendered as the sentence of the specification:
    the text [self.distance=] stands before the distance. *)
Lemma CloseApproach_str_never_sentence self o :
  neo self = Some o ->
  CloseApproach_str self <> inr (CloseApproach_sentence self o).
Proof.
  intros H. rewrite (CloseApproach_str_linked _ _ H). unfold CloseApproach_sentence.
  destruct (format_f_float_head (distance self)) as (c & r & Hf & Hc).
  rewrite Hf. intros [= E].
  apply append_cancel_l in E. cbn [append] in E. injection E as E.
  apply append_cancel_l in E. cbn [append] in E. congruence.
Qed.

(** C2: on the worked example [CloseApproach.__str__] returns the sentence
    with the texts [self.distance=] and [self.velocity=] before the two
    numbers, which is not the sentence "On <time_str>, '<neo.fullname>'
    approaches Earth at a distance of <distance> au and a velocity of
    <velocity> km/s." *)
Theorem CloseApproach_str_of_433 :
  NearEarthObject_init (PyStr "433") (PyStr "Eros") (PyFloat (of_ratio 1684 100))
    (PyStr "N") = inr eros /\
  CloseApproach_init (PyStr "433") (PyStr "2020-06-01 00:00")
    (PyFloat (of_ratio 45 100)) (PyFloat (of_ratio 72 10)) (Some eros)
    = inr approach /\
  CloseApproach_str approach
    = inr ("On 2020-06-01 00:00, '433 (Eros)' approaches Earth at a distance " ++
           "of self.distance=0.45 au and a velocity of self.velocity=7.20 km/s.") /\
  CloseApproach_sentence approach eros
    = "On 2020-06-01 00:00, '433 (Eros)' approaches Earth at a distance " ++
      "of 0.45 au and a velocity of 7.20 km/s." /\
  CloseApproach_str approach <> inr (CloseApproach_sentence approach eros).
Proof.
  repeat split; try (vm_compute; reflexivity).
  now apply CloseApproach_str_never_sentence.
Qed.

(** *** Missing values *)

(** A [float] diameter is always formatted, [nan] included. *)
Lemma NearEarthObject_renders self f :
  diameter self = PyFloat f ->
  (exists s, NearEarthObject_str self = inr s) /\
  (exists s, NearEarthObject_repr self = inr s).
Proof.
  intros H. unfold NearEarthObject_str, NearEarthObject_repr. rewrite H.
  split; [destruct (hazardous self)|]; eexists; reflexivity.
Qed.

(** [CloseApproach.__repr__] returns whenever [repr] of the linked object
    does. *)
Lemma CloseApproach_repr_returns self :
  (exists s, neo_repr self = inr s) -> exists s, CloseApproach_repr self = inr s.
Proof.
  intros [s H]. unfold CloseApproach_repr. rewrite H. eexists. reflexivity.
Qed.

(** C3, as the code has it: with a [str] for designation, name and
    designation of the approach, empty or not, a [float] for diameter,
    distance and velocity, [nan] or not, and a time that is empty or
    well-formed, both constructions succeed, and [__str__] and [__repr__]
    of the object and [__repr__] of the approach return a string;
    [CloseApproach.__str__] returns a string when the object is linked and
    raises [AttributeError] when it is not. *)
Theorem missing_values_render (d n cd ts : string) (dia dist vel : float) (h : value) :
  isinstance h [bool_t; str_t] = true ->
  (ts = "" \/ exists t, cd_to_datetime ts = inr t) ->
  exists o,
    NearEarthObject_init (PyStr d) (PyStr n) (PyFloat dia) h = inr o /\
    (exists s, NearEarthObject_str o = inr s) /\
    (exists s, NearEarthObject_repr o = inr s) /\
    (forall linked, linked = None \/ linked = Some o ->
       exists ca,
         CloseApproach_init (PyStr cd) (PyStr ts) (PyFloat dist) (PyFloat vel) linked
           = inr ca /\
         time_str ca = ts /\
         (exists s, CloseApproach_repr ca = inr s) /\
         (linked = Some o -> exists s, CloseApproach_str ca = inr s) /\
         (linked = None -> exists msg, CloseApproach_str ca = inl (AttributeError msg))).
Proof.
  intros Hh Hts.
  assert (Ho : exists o, NearEarthObject_init (PyStr d) (PyStr n) (PyFloat dia) h = inr o).
  { unfold NearEarthObject_init, unless. rewrite Hh. eexists. reflexivity. }
  destruct Ho as [o Ho]. exists o. split; [exact Ho|].
  assert (Hdia : diameter o = PyFloat dia).
  { now apply NearEarthObject_init_inr in Ho as (_ & _ & _ & _ & ->). }
  destruct (NearEarthObject_renders _ _ Hdia) as [Hstr Hrepr].
  split; [exact Hstr|]. split; [exact Hrepr|].
  intros linked Hl.
  assert (Hca : exists ca,
            CloseApproach_init (PyStr cd) (PyStr ts) (PyFloat dist) (PyFloat vel) linked
              = inr ca).
  { rewrite CloseApproach_init_well_typed by reflexivity.
    destruct Hts as [-> | [t Ht]].
    - eexists. reflexivity.
    - cbn [truthy text]. rewrite Ht. destruct (str_truthy ts); eexists; reflexivity. }
  destruct Hca as [ca Hca]. exists ca. split; [exact Hca|].
  split; [exact (time_str_of_constructed _ _ _ _ _ _ Hca)|].
  apply CloseApproach_init_inr in Hca as (_ & _ & _ & _ & _ & Hneo).
  split; [|split].
  - apply CloseApproach_repr_returns. unfold neo_repr. rewrite Hneo.
    destruct Hl as [-> | ->]; [eexists; reflexivity | exact Hrepr].
  - intros ->. rewrite (CloseApproach_str_linked _ _ Hneo). eexists. reflexivity.
  - intros ->. unfold CloseApproach_str, neo_fullname. rewrite Hneo.
    eexists. reflexivity.
Qed.

Lemma missing_values_render_example :
  isinstance (PyStr "") [bool_t; str_t] = true /\
  ("" = "" \/ exists t, cd_to_datetime "" = inr t) /\
  exists o,
    NearEarthObject_init (PyStr "") (PyStr "") (PyFloat nan) (PyStr "") = inr o /\
    (exists s, NearEarthObject_str o = inr s) /\
    (exists s, NearEarthObject_repr o = inr s) /\
    (forall linked, linked = None \/ linked = Some o ->
       exists ca,
         CloseApproach_init (PyStr "") (PyStr "") (PyFloat nan) (PyFloat nan) linked
           = inr ca /\
         time_str ca = "" /\
         (exists s, CloseApproach_repr ca = inr s) /\
         (linked = Some o -> exists s, CloseApproach_str ca = inr s) /\
         (linked = None -> exists msg, CloseApproach_str ca = inl (AttributeError msg))).
Proof.
  split; [reflexivity|]. split; [left; reflexivity|].
  apply (missing_values_render "" "" "" "" nan nan nan (PyStr "")).
  - reflexivity.
  - left. reflexivity.
Defined.

(** C3 as stated fails: [CloseApproach()] is constructed, with no object
    linked, and its [__str__] raises instead of returning a string. *)
Lemma unlinked_CloseApproach_str_raises :
  CloseApproach_default = inr unlinked /\
  CloseApproach_str unlinked
    = inl (AttributeError "'NoneType' object has no attribute 'fullname'") /\
  ~ (exists s, CloseApproach_str unlinked = inr s).
Proof.
  split; [reflexivity|]. split; [reflexivity|]. intros [s H]. discriminate H.
Qed.

(** *** Errors of the constructors *)

Lemma NearEarthObject_init_cases d n dia h :
  if NearEarthObject_well_typed d n dia h
  then exists o, NearEarthObject_init d n dia h = inr o
  else exists msg, NearEarthObject_init d n dia h = inl (TypeError msg).
Proof.
  unfold NearEarthObject_well_typed, NearEarthObject_init, unless.
  destruct (isinstance d [str_t]); [|eexists; reflexivity].
  destruct (isinstance n [str_t]); [|eexists; reflexivity].
  destruct (isinstance dia [float_t; int_t]); [|eexists; reflexivity].
  destruct (isinstance h [bool_t; str_t]); eexists; reflexivity.
Qed.

(** Closes a goal [e = e'] from [H : raise e' = inl e], and a goal whose
    [H] equates a raise with a return. *)
Ltac raised H := solve [injection H as <-; reflexivity | discriminate H].

(** The parser raises nothing but its [ValueError]. *)
Lemma cd_to_datetime_inl s e : cd_to_datetime s = inl e -> e = malformed.
Proof.
  unfold cd_to_datetime. intros H.
  destruct (list_ascii_of_string s)
    as [|y1 [|y2 [|y3 [|y4 [|s1 [|m1 [|m2 [|s2 [|d1 [|d2 [|s3 [|h1 [|h2
       [|s4 [|n1 [|n2 [|x l]]]]]]]]]]]]]]]]]; try raised H.
  destruct (Ascii.eqb s1 "-" && Ascii.eqb s2 "-" && Ascii.eqb s3 " " && Ascii.eqb s4 ":");
    [|raised H].
  destruct (num4 y1 y2 y3 y4) as [y|]; [|raised H].
  destruct (num2 m1 m2) as [m|]; [|raised H].
  destruct (num2 d1 d2) as [d|]; [|raised H].
  destruct (num2 h1 h2) as [h|]; [|raised H].
  destruct (num2 n1 n2) as [mi|]; [|raised H].
  destruct (valid_fields y m d h mi); raised H.
Qed.

(** [float(v)] of a number raises nothing but [OverflowError]. *)
Lemma float_inl v e :
  isinstance v [float_t; int_t] = true -> float_ v = inl e ->
  exists msg, e = OverflowError msg.
Proof.
  assert (F : forall z, float_of_int z = inl e -> exists msg, e = OverflowError msg).
  { intros z. unfold float_of_int. destruct (of_Z z); try discriminate.
    intros [= <-]. eexists. reflexivity. }
  destruct v; cbn; try discriminate; intros _; apply F.
Qed.

(** C5, as the code has it: [NearEarthObject.__init__] raises nothing but
    [TypeError], and raises it exactly when designation or name is not a
    [str], diameter is not a [float] or [int], or hazardous is not a [bool]
    or [str], so a [str] for a diameter fails; [CloseApproach.__init__]
    raises [TypeError] exactly when designation or time is not a [str] or
    distance or velocity is not a number, and with well-typed arguments it
    fails only with the parser's error on a non-empty time or with
    [OverflowError] from [float], and succeeds otherwise. *)
Theorem constructors_raise_TypeError_iff_ill_typed :
  (forall d n dia h,
     ((exists o, NearEarthObject_init d n dia h = inr o)
        <-> NearEarthObject_well_typed d n dia h = true) /\
     ((exists msg, NearEarthObject_init d n dia h = inl (TypeError msg))
        <-> NearEarthObject_well_typed d n dia h = false) /\
     (forall e, NearEarthObject_init d n dia h = inl e -> exists msg, e = TypeError msg)) /\
  (forall d n s h,
     NearEarthObject_well_typed d n (PyStr s) h = false /\
     (isinstance d [str_t] = true -> isinstance n [str_t] = true ->
      NearEarthObject_init d n (PyStr s) h
        = inl (TypeError "'diameter' must be a number."))) /\
  (forall d t dist vel linked,
     ((exists msg, CloseApproach_init d t dist vel linked = inl (TypeError msg))
        <-> CloseApproach_well_typed d t dist vel = false) /\
     (forall e, CloseApproach_well_typed d t dist vel = true ->
        CloseApproach_init d t dist vel linked = inl e ->
        (truthy t = true /\ cd_to_datetime (text t) = inl e /\ e = malformed) \/
        (exists msg, e = OverflowError msg /\
                     (float_ dist = inl e \/ float_ vel = inl e))) /\
     (CloseApproach_well_typed d t dist vel = true ->
      (truthy t = false \/ exists dt, cd_to_datetime (text t) = inr dt) ->
      (exists f, float_ dist = inr f) -> (exists f, float_ vel = inr f) ->
      exists ca, CloseApproach_init d t dist vel linked = inr ca)).
Proof.
  split; [|split].
  - intros d n dia h. pose proof (NearEarthObject_init_cases d n dia h) as C.
    destruct (NearEarthObject_well_typed d n dia h).
    + destruct C as [o Ho]. rewrite Ho. repeat split; try discriminate.
      * now exists o.
      * intros [msg H]. discriminate H.
    + destruct C as [msg Hm]. rewrite Hm. repeat split; try discriminate.
      * intros [o H]. discriminate H.
      * now exists msg.
      * intros e [= <-]. now exists msg.
  - intros d n s h. split.
    + unfold NearEarthObject_well_typed. cbn. now rewrite andb_false_r.
    + intros Hd Hn. unfold NearEarthObject_init, unless. now rewrite Hd, Hn.
  - intros d t dist vel linked. split; [|split].
    + destruct (CloseApproach_well_typed d t dist vel) eqn:W.
      * split; [|discriminate]. intros [msg H]. exfalso. revert H.
        rewrite (CloseApproach_init_well_typed _ _ _ _ _ W).
        unfold CloseApproach_well_typed in W.
        repeat (apply andb_prop in W as [W ?]).
        destruct (truthy t).
        -- destruct (cd_to_datetime (text t)) as [e|dt] eqn:P.
           ++ apply cd_to_datetime_inl in P as ->. discriminate.
           ++ destruct (float_ dist) as [e|f] eqn:Fd.
              ** apply float_inl in Fd as [m ->]; [discriminate | assumption].
              ** destruct (float_ vel) as [e|g] eqn:Fv; [|discriminate].
                 apply float_inl in Fv as [m ->]; [discriminate | assumption].
        -- destruct (float_ dist) as [e|f] eqn:Fd.
           ++ apply float_inl in Fd as [m ->]; [discriminate | assumption].
           ++ destruct (float_ vel) as [e|g] eqn:Fv; [|discriminate].
              apply float_inl in Fv as [m ->]; [discriminate | assumption].
      * split; [reflexivity|]. intros _.
        now apply CloseApproach_init_ill_typed.
    + intros e W. rewrite (CloseApproach_init_well_typed _ _ _ _ _ W).
      unfold CloseApproach_well_typed in W.
      repeat (apply andb_prop in W as [W ?]).
      assert (N : forall t' : option datetime,
                (d' <- float_ dist ;; v' <- float_ vel ;;
                 ret {| _designation := if truthy d then Some (text d) else None;
                        time := t'; distance := d'; velocity := v';
                        neo := linked |}) = inl e ->
                exists msg, e = OverflowError msg /\
                            (float_ dist = inl e \/ float_ vel = inl e)).
      { intros t'. destruct (float_ dist) as [e'|f] eqn:Fd.
        - intros [= ->]. apply float_inl in Fd as Fd'; [|assumption].
          destruct Fd' as [m ->]. exists m. auto.
        - destruct (float_ vel) as [e'|g] eqn:Fv; [|discriminate].
          intros [= ->]. apply float_inl in Fv as Fv'; [|assumption].
          destruct Fv' as [m ->]. exists m. auto. }
      destruct (truthy t).
      * destruct (cd_to_datetime (text t)) as [e'|dt] eqn:P.
        -- intros [= ->]. left. repeat split. now apply cd_to_datetime_inl in P.
        -- intros H'. right. exact (N _ H').
      * intros H'. right. exact (N _ H').
    + intros W Ht [f Hf] [g Hg].
      rewrite (CloseApproach_init_well_typed _ _ _ _ _ W), Hf, Hg.
      destruct (truthy t).
      * destruct Ht as [Ht | [dt Ht]]; [discriminate|]. rewrite Ht.
        eexists. reflexivity.
      * eexists. reflexivity.
Qed.

(** C5 as stated fails: with arguments of the declared types
    [CloseApproach.__init__] raises [OverflowError] for an integer distance
    beyond the floats, and the parser's [ValueError] for a time that is a
    string but not in the format. *)
Lemma CloseApproach_init_raises_other_errors :
  CloseApproach_well_typed (PyStr "433") (PyStr "2020-06-01 00:00")
    (PyInt (2 ^ 1024)) (PyFloat nan) = true /\
  CloseApproach_init (PyStr "433") (PyStr "2020-06-01 00:00")
    (PyInt (2 ^ 1024)) (PyFloat nan) None
    = inl (OverflowError "int too large to convert to float") /\
  CloseApproach_well_typed (PyStr "433") (PyStr "1 June 2020")
    (PyFloat nan) (PyFloat nan) = true /\
  CloseApproach_init (PyStr "433") (PyStr "1 June 2020")
    (PyFloat nan) (PyFloat nan) None
    = inl (ValueError "time data does not match format 'YYYY-MM-DD HH:MM'").
Proof.
  repeat split; vm_compute; reflexivity.
Qed.

Lemma constructors_raise_TypeError_iff_ill_typed_example :
  isinstance (PyStr "433") [str_t] = true /\
  isinstance (PyStr "Eros") [str_t] = true /\
  NearEarthObject_init (PyStr "433") (PyStr "Eros") (PyStr "16.84") (PyStr "N")
    = inl (TypeError "'diameter' must be a number.").
Proof.
  split; [reflexivity|]. split; [reflexivity|].
  destruct constructors_raise_TypeError_iff_ill_typed as (_ & H & _).
  apply (H (PyStr "433") (PyStr "Eros") "16.84" (PyStr "N")); reflexivity.
Defined.

(** ** Further properties of the constructors *)

(** X1: [NearEarthObject.__init__] reports the first argument that fails its
    check, in the order designation, name, diameter, hazardous: each
    message is raised exactly when its argument is ill-typed and every
    argument before it is well-typed. *)
Theorem NearEarthObject_init_first_failure d n dia h :
  (NearEarthObject_init d n dia h = inl (TypeError "'designation' must be a string.")
     <-> isinstance d [str_t] = false) /\
  (NearEarthObject_init d n dia h = inl (TypeError "'name' must be a string.")
     <-> isinstance d [str_t] = true /\ isinstance n [str_t] = false) /\
  (NearEarthObject_init d n dia h = inl (TypeError "'diameter' must be a number.")
     <-> isinstance d [str_t] = true /\ isinstance n [str_t] = true /\
         isinstance dia [float_t; int_t] = false) /\
  (NearEarthObject_init d n dia h = inl (TypeError "'hazardous' must be True/False.")
     <-> isinstance d [str_t] = true /\ isinstance n [str_t] = true /\
         isinstance dia [float_t; int_t] = true /\
         isinstance h [bool_t; str_t] = false).
Proof.
  unfold NearEarthObject_init, unless.
  destruct (isinstance d [str_t]), (isinstance n [str_t]),
    (isinstance dia [float_t; int_t]), (isinstance h [bool_t; str_t]);
    cbn; repeat split; intros; try discriminate; intuition discriminate.
Qed.

Lemma NearEarthObject_init_first_failure_example :
  NearEarthObject_init (PyInt 433) PyNone (PyStr "16.84") PyNone
    = inl (TypeError "'designation' must be a string.") /\
  NearEarthObject_init (PyStr "433") PyNone (PyStr "16.84") PyNone
    = inl (TypeError "'name' must be a string.") /\
  NearEarthObject_init (PyStr "433") (PyStr "Eros") (PyStr "16.84") PyNone
    = inl (TypeError "'diameter' must be a number.") /\
  NearEarthObject_init (PyStr "433") (PyStr "Eros") (PyInt 17) PyNone
    = inl (TypeError "'hazardous' must be True/False.").
Proof.
  split; [|split; [|split]].
  - apply (NearEarthObject_init_first_failure (PyInt 433) PyNone (PyStr "16.84") PyNone).
    reflexivity.
  - apply (NearEarthObject_init_first_failure (PyStr "433") PyNone (PyStr "16.84") PyNone).
    split; reflexivity.
  - apply (NearEarthObject_init_first_failure
             (PyStr "433") (PyStr "Eros") (PyStr "16.84") PyNone).
    repeat split.
  - apply (NearEarthObject_init_first_failure
             (PyStr "433") (PyStr "Eros") (PyInt 17) PyNone).
    repeat split.
Defined.

(** With well-typed arguments [CloseApproach.__init__] raises no
    [TypeError]: what it raises is the parser's error or [OverflowError]. *)
Lemma CloseApproach_init_well_typed_error d t dist vel linked e :
  CloseApproach_well_typed d t dist vel = true ->
  CloseApproach_init d t dist vel linked = inl e ->
  e = malformed \/ exists msg, e = OverflowError msg.
Proof.
  intros W. rewrite (CloseApproach_init_well_typed _ _ _ _ _ W).
  unfold CloseApproach_well_typed in W.
  apply andb_prop in W as [W Hdist]. apply andb_prop in W as [_ Hvel].
  assert (N : forall t' : option datetime,
            (d' <- float_ dist ;; v' <- float_ vel ;;
             ret {| _designation := if truthy d then Some (text d) else None;
                    time := t'; distance := d'; velocity := v';
                    neo := linked |}) = inl e ->
            exists msg, e = OverflowError msg).
  { intros t'. destruct (float_ dist) as [e'|f] eqn:Fd.
    - intros [= ->]. exact (float_inl _ _ Hdist Fd).
    - destruct (float_ vel) as [e'|g] eqn:Fv; [|discriminate].
      intros [= ->]. exact (float_inl _ _ Hvel Fv). }
  destruct (truthy t).
  - destruct (cd_to_datetime (text t)) as [e'|dt] eqn:P.
    + intros [= ->]. left. exact (cd_to_datetime_inl _ _ P).
    + intros H. right. exact (N _ H).
  - intros H. right. exact (N _ H).
Qed.

(** X2: [CloseApproach.__init__] reports the first argument that fails its
    type check, in the order designation, time, velocity, distance (the
    velocity before the distance): each message is raised exactly when its
    argument is ill-typed and every argument checked before it is
    well-typed. *)
Theorem CloseApproach_init_first_failure d t dist vel linked :
  (CloseApproach_init d t dist vel linked
     = inl (TypeError "'designation' must be a string.")
     <-> isinstance d [str_t] = false) /\
  (CloseApproach_init d t dist vel linked
     = inl (TypeError "'time' must be a string in the following format; 'yyyy-mm-dd HH:MM'.")
     <-> isinstance d [str_t] = true /\ isinstance t [str_t] = false) /\
  (CloseApproach_init d t dist vel linked
     = inl (TypeError "'velocity' must be a number.")
     <-> isinstance d [str_t] = true /\ isinstance t [str_t] = true /\
         isinstance vel [float_t; int_t] = false) /\
  (CloseApproach_init d t dist vel linked
     = inl (TypeError "'distance' must be a number.")
     <-> isinstance d [str_t] = true /\ isinstance t [str_t] = true /\
         isinstance vel [float_t; int_t] = true /\
         isinstance dist [float_t; int_t] = false).
Proof.
  assert (W : CloseApproach_well_typed d t dist vel = true ->
              forall msg, CloseApproach_init d t dist vel linked <> inl (TypeError msg)).
  { intros W msg H.
    destruct (CloseApproach_init_well_typed_error _ _ _ _ _ _ W H) as [E | [m E]];
      discriminate E. }
  revert W. unfold CloseApproach_well_typed, CloseApproach_init, unless.
  destruct (isinstance d [str_t]), (isinstance t [str_t]),
    (isinstance vel [float_t; int_t]), (isinstance dist [float_t; int_t]);
    cbn [andb]; intros W;
    try (specialize (W eq_refl)); repeat split; intros;
    try discriminate; try (exfalso; eapply W; eassumption);
    intuition discriminate.
Qed.

Lemma CloseApproach_init_first_failure_example :
  CloseApproach_init (PyStr "433") (PyStr "") (PyStr "0.45") (PyStr "7.2") None
    = inl (TypeError "'velocity' must be a number.") /\
  CloseApproach_init (PyStr "433") (PyStr "") (PyStr "0.45") (PyInt 7) None
    = inl (TypeError "'distance' must be a number.").
Proof.
  split.
  - apply (CloseApproach_init_first_failure
             (PyStr "433") (PyStr "") (PyStr "0.45") (PyStr "7.2") None).
    repeat split.
  - apply (CloseApproach_init_first_failure
             (PyStr "433") (PyStr "") (PyStr "0.45") (PyInt 7) None).
    repeat split.
Defined.

(** X3: once the four type checks pass, [CloseApproach.__init__] converts
    in the order time, distance, velocity and raises the first error it
    meets: a time the parser rejects wins over any number, and the
    distance wins over the velocity; when nothing fails the approach is
    constructed. *)
Theorem CloseApproach_init_conversion_order d t dist vel linked :
  CloseApproach_well_typed d t dist vel = true ->
  (forall e, truthy t = true -> cd_to_datetime (text t) = inl e ->
     CloseApproach_init d t dist vel linked = inl e) /\
  (forall e, truthy t = false \/ (exists dt, cd_to_datetime (text t) = inr dt) ->
     float_ dist = inl e ->
     CloseApproach_init d t dist vel linked = inl e) /\
  (forall e f, truthy t = false \/ (exists dt, cd_to_datetime (text t) = inr dt) ->
     float_ dist = inr f -> float_ vel = inl e ->
     CloseApproach_init d t dist vel linked = inl e) /\
  (forall f g, truthy t = false \/ (exists dt, cd_to_datetime (text t) = inr dt) ->
     float_ dist = inr f -> float_ vel = inr g ->
     exists self, CloseApproach_init d t dist vel linked = inr self /\
                  distance self = f /\ velocity self = g).
Proof.
  intros W. rewrite (CloseApproach_init_well_typed _ _ _ _ _ W).
  split; [|split; [|split]].
  - intros e Ht Hp. now rewrite Ht, Hp.
  - intros e Ht Hd. rewrite Hd.
    destruct (truthy t); [|reflexivity].
    destruct Ht as [Ht | [dt ->]]; [discriminate | reflexivity].
  - intros e f Ht Hd Hv. rewrite Hd, Hv.
    destruct (truthy t); [|reflexivity].
    destruct Ht as [Ht | [dt ->]]; [discriminate | reflexivity].
  - intros f g Ht Hd Hv. rewrite Hd, Hv.
    destruct (truthy t).
    + destruct Ht as [Ht | [dt ->]]; [discriminate|].
      eexists. split; [reflexivity|]. split; reflexivity.
    + eexists. split; [reflexivity|]. split; reflexivity.
Qed.

Lemma CloseApproach_init_conversion_order_example :
  CloseApproach_well_typed (PyStr "433") (PyStr "1 June 2020")
    (PyInt (2 ^ 1024)) (PyInt (2 ^ 1024)) = true /\
  CloseApproach_init (PyStr "433") (PyStr "1 June 2020")
    (PyInt (2 ^ 1024)) (PyInt (2 ^ 1024)) None = inl malformed.
Proof.
  split; [reflexivity|].
  destruct (CloseApproach_init_conversion_order
              (PyStr "433") (PyStr "1 June 2020") (PyInt (2 ^ 1024))
              (PyInt (2 ^ 1024)) None eq_refl) as (H & _).
  apply H; reflexivity.
Defined.

(** X4: what [NearEarthObject.__init__] leaves in a new object: the
    designation and the name are never the empty string (they are [None]
    instead), the diameter is a [float] or an [int], the collection of
    approaches is empty, and so the full name is never empty. *)
Theorem NearEarthObject_init_invariant d n dia h self :
  NearEarthObject_init d n dia h = inr self ->
  designation self <> Some "" /\
  name self <> Some "" /\
  isinstance (diameter self) [float_t; int_t] = true /\
  approaches self = [] /\
  fullname self <> "".
Proof.
  intros H.
  destruct (stored_designation _ _ _ _ _ H) as (ds & _ & Sd).
  destruct (stored_name _ _ _ _ _ H) as (ns & _ & Sn).
  destruct (NearEarthObject_init_inr _ _ _ _ _ H) as (_ & _ & Hdia & _ & E).
  assert (Dne : designation self <> Some "").
  { rewrite Sd. destruct ds; cbn; congruence. }
  split; [exact Dne|]. split; [|split; [|split]].
  - rewrite Sn. destruct ns; cbn; congruence.
  - now rewrite E.
  - now rewrite E.
  - unfold fullname. destruct (designation self) as [[|c r]|]; cbn.
    + now elim Dne.
    + destruct (opt_truthy (name self)); discriminate.
    + destruct (opt_truthy (name self)); discriminate.
Qed.

Lemma NearEarthObject_init_invariant_example :
  NearEarthObject_init (PyStr "") (PyStr "") (PyFloat nan) (PyStr "") = inr nameless /\
  designation nameless <> Some "" /\
  name nameless <> Some "" /\
  isinstance (diameter nameless) [float_t; int_t] = true /\
  approaches nameless = [] /\
  fullname nameless <> "".
Proof.
  split; [reflexivity|].
  apply (NearEarthObject_init_invariant (PyStr "") (PyStr "") (PyFloat nan) (PyStr "")).
  reflexivity.
Defined.

(** X5: what [CloseApproach.__init__] leaves in a new approach: the private
    designation is [None] exactly for the empty string and is otherwise the
    string given, never an empty one; the time is [None] exactly for the
    empty string; the linked object is the argument as given; a [float]
    distance or velocity is stored unchanged. *)
Theorem CloseApproach_init_stored d t dist vel linked self :
  CloseApproach_init d t dist vel linked = inr self ->
  (_designation self = None <-> d = PyStr "") /\
  (forall s, s <> "" -> d = PyStr s -> _designation self = Some s) /\
  _designation self <> Some "" /\
  (time self = None <-> t = PyStr "") /\
  neo self = linked /\
  (forall f, dist = PyFloat f -> distance self = f) /\
  (forall f, vel = PyFloat f -> velocity self = f).
Proof.
  intros H.
  apply CloseApproach_init_inr in H as (W & Ht & Hd & Hv & Hdes & Hneo).
  unfold CloseApproach_well_typed in W.
  apply andb_prop in W as [W _]. apply andb_prop in W as [W _].
  apply andb_prop in W as [Wd Wt].
  destruct (isinstance_str _ Wd) as [ds ->].
  destruct (isinstance_str _ Wt) as [ts ->].
  cbn [truthy text] in Hdes, Ht. rewrite Hdes.
  repeat split.
  - destruct ds; cbn; congruence.
  - now intros [= ->].
  - intros s Hs [= ->]. apply str_truthy_true in Hs. now rewrite Hs.
  - destruct ds; cbn; congruence.
  - intros Hn. destruct ts; [reflexivity|]. cbn in Ht.
    destruct Ht as (dt & _ & Hs). congruence.
  - intros [= ->]. exact Ht.
  - exact Hneo.
  - intros f ->. cbn in Hd. congruence.
  - intros f ->. cbn in Hv. congruence.
Qed.

Lemma CloseApproach_init_stored_example :
  CloseApproach_init (PyStr "") (PyStr "") (PyFloat nan) (PyFloat nan) None
    = inr unlinked /\
  _designation unlinked = None /\ time unlinked = None /\ neo unlinked = None /\
  distance unlinked = nan /\ velocity unlinked = nan.
Proof.
  split; [reflexivity|].
  destruct (CloseApproach_init_stored (PyStr "") (PyStr "") (PyFloat nan)
              (PyFloat nan) None unlinked eq_refl)
    as (Hd & _ & _ & Ht & Hn & Hdist & Hvel).
  split; [now apply Hd|]. split; [now apply Ht|]. split; [exact Hn|].
  split; [now apply Hdist | now apply Hvel].
Defined.

(** ** Further properties of the renderings *)

(** Brings both sides of an equation between texts to one right-nested
    chain of characters and appended parts. *)
Ltac flatten_text := repeat progress (cbn [append]; rewrite ?append_assoc).

(** Formatting a number is converting it to [float] and formatting that. *)
Lemma format_f_numeric p v :
  isinstance v [float_t; int_t] = true ->
  format_f p v = (f <- float_ v ;; ret (format_f_float p f)).
Proof. destruct v; cbn; try discriminate; reflexivity. Qed.

(** [float(z)] fails with one message only. *)
Lemma float_of_int_inl z e :
  float_of_int z = inl e -> e = OverflowError "int too large to convert to float".
Proof.
  unfold float_of_int. destruct (of_Z z); try discriminate. now intros [= <-].
Qed.

(** Both renderings of an object stand or fall with the formatted
    diameter. *)
Lemma NearEarthObject_str_format self :
  NearEarthObject_str self =
    (d <- format_f 3 (diameter self) ;;
     ret ("NEO " ++ fullname self ++ " has a diameter of " ++ d ++
          (if hazardous self then " km and is potentially hazardous."
           else " km and is not potentially hazardous."))).
Proof. unfold NearEarthObject_str. destruct (hazardous self); reflexivity. Qed.

(** X6: the sentence [str] gives for an object constructed from a non-empty
    designation [d], a name [n], a [float] diameter [f] and a hazard marker
    [h]: the designation, the name in round brackets unless it is empty,
    the diameter with the format [.3f], and "is potentially hazardous" for
    the marker "Y", "is not potentially hazardous" for any other. *)
Theorem NearEarthObject_str_of_constructed (d n : string) (f : float) (h : value) self :
  d <> "" ->
  NearEarthObject_init (PyStr d) (PyStr n) (PyFloat f) h = inr self ->
  NearEarthObject_str self =
    inr ("NEO " ++ d ++ (if str_truthy n then " (" ++ n ++ ")" else "") ++
         " has a diameter of " ++ format_f_float 3 f ++ " km and is " ++
         (if eq_str h "Y" then "" else "not ") ++ "potentially hazardous.").
Proof.
  intros Hd H. apply str_truthy_true in Hd.
  apply NearEarthObject_init_inr in H as (_ & _ & _ & _ & ->).
  rewrite NearEarthObject_str_format. unfold fullname.
  cbn [designation name diameter hazardous truthy text format_f].
  rewrite Hd. cbn [str_ opt_truthy].
  destruct (str_truthy n) eqn:En, (eq_str h "Y"); cbn; rewrite ?En;
    flatten_text; reflexivity.
Qed.

Lemma NearEarthObject_str_of_constructed_example :
  "2015 CD3" <> "" /\
  NearEarthObject_init (PyStr "2015 CD3") (PyStr "Bruce") (PyFloat nan) (PyStr "Y")
    = inr bruce /\
  NearEarthObject_str bruce
    = inr "NEO 2015 CD3 (Bruce) has a diameter of nan km and is potentially hazardous.".
Proof.
  split; [discriminate|]. split; [reflexivity|].
  apply (NearEarthObject_str_of_constructed "2015 CD3" "Bruce" nan (PyStr "Y") bruce);
    [discriminate | reflexivity].
Defined.

(** X7: for a constructed object [str] and [repr] return or raise together,
    and they return exactly when the diameter converts to a [float]. A
    [float] or [bool] diameter always renders; an [int] diameter that is too
    large for a float is accepted by the constructor but makes both
    renderings raise [OverflowError]. *)
Theorem NearEarthObject_renderings_fail_together d n dia h self :
  NearEarthObject_init d n dia h = inr self ->
  ((exists s, NearEarthObject_str self = inr s) <-> (exists f, float_ dia = inr f)) /\
  ((exists s, NearEarthObject_repr self = inr s) <-> (exists f, float_ dia = inr f)) /\
  (forall e, NearEarthObject_str self = inl e <-> NearEarthObject_repr self = inl e) /\
  (forall e, NearEarthObject_str self = inl e ->
     e = OverflowError "int too large to convert to float" /\
     exists z, dia = PyInt z /\ float_of_int z = inl e) /\
  (forall z, dia = PyInt z -> forall e, float_of_int z = inl e ->
     NearEarthObject_str self = inl e).
Proof.
  intros H.
  apply NearEarthObject_init_inr in H as (_ & _ & Hdia & _ & ->).
  rewrite NearEarthObject_str_format. unfold NearEarthObject_repr.
  cbn [diameter]. rewrite (format_f_numeric 3 dia Hdia).
  assert (Hint : forall z, dia = PyInt z -> float_ dia = float_of_int z)
    by (intros z ->; reflexivity).
  assert (Hover : forall e, float_ dia = inl e ->
            e = OverflowError "int too large to convert to float" /\
            exists z, dia = PyInt z /\ float_of_int z = inl e).
  { intros e F. destruct dia; try discriminate Hdia; cbn in F.
    - destruct b; discriminate F.
    - split; [exact (float_of_int_inl _ _ F) | now exists z].
    - discriminate F. }
  destruct (float_ dia) as [e0|f0]; cbn.
  - split; [|split; [|split; [|split]]].
    + split; intros [x Hx]; discriminate Hx.
    + split; intros [x Hx]; discriminate Hx.
    + intros e. split; intros [= <-]; reflexivity.
    + intros e [= <-]. now apply Hover.
    + intros z Hz e He. rewrite <- (Hint z Hz) in He. congruence.
  - split; [|split; [|split; [|split]]].
    + split; intros _; eexists; reflexivity.
    + split; intros _; eexists; reflexivity.
    + intros e. split; discriminate.
    + intros e. discriminate.
    + intros z Hz e He. rewrite <- (Hint z Hz) in He. discriminate He.
Qed.

Lemma NearEarthObject_renderings_fail_together_example :
  NearEarthObject_init (PyStr "433") (PyStr "Eros") (PyInt (2 ^ 1024)) (PyStr "N")
    = inr giant /\
  float_of_int (2 ^ 1024) = inl (OverflowError "int too large to convert to float") /\
  NearEarthObject_str giant = inl (OverflowError "int too large to convert to float") /\
  NearEarthObject_repr giant = inl (OverflowError "int too large to convert to float").
Proof.
  split; [reflexivity|]. split; [reflexivity|].
  destruct (NearEarthObject_renderings_fail_together
              (PyStr "433") (PyStr "Eros") (PyInt (2 ^ 1024)) (PyStr "N") giant eq_refl)
    as (_ & _ & Hboth & _ & Hint).
  assert (S : NearEarthObject_str giant
              = inl (OverflowError "int too large to convert to float")).
  { exact (Hint _ eq_refl _ eq_refl). }
  split; [exact S | now apply Hboth].
Defined.

(** X8: [CloseApproach.__str__] returns a string exactly when an object is
    linked, and the only error it raises is the [AttributeError] of the
    missing link; it reads the full name of the linked object and nothing
    else of it, so two approaches with the same time, distance and velocity
    whose objects have the same full name are rendered alike. *)
Theorem CloseApproach_str_returns_iff_linked self :
  ((exists s, CloseApproach_str self = inr s) <-> neo self <> None) /\
  (forall e, CloseApproach_str self = inl e ->
     neo self = None /\
     e = AttributeError "'NoneType' object has no attribute 'fullname'") /\
  (forall other o o',
     neo self = Some o -> neo other = Some o' -> fullname o = fullname o' ->
     time self = time other -> distance self = distance other ->
     velocity self = velocity other ->
     CloseApproach_str self = CloseApproach_str other).
Proof.
  split; [|split].
  - destruct (neo self) as [o|] eqn:E.
    + rewrite (CloseApproach_str_linked _ _ E). split; [discriminate|].
      intros _. eexists. reflexivity.
    + unfold CloseApproach_str, neo_fullname. rewrite E. cbn. split.
      * intros [s H]. discriminate H.
      * intros H. now elim H.
  - intros e. destruct (neo self) as [o|] eqn:E.
    + rewrite (CloseApproach_str_linked _ _ E). discriminate.
    + unfold CloseApproach_str, neo_fullname. rewrite E. cbn.
      intros [= <-]. split; reflexivity.
  - intros other o o' E E' Hf Ht Hd Hv.
    rewrite (CloseApproach_str_linked _ _ E), (CloseApproach_str_linked _ _ E').
    unfold time_str. now rewrite Hf, Ht, Hd, Hv.
Qed.

Lemma CloseApproach_str_returns_iff_linked_example :
  neo giant_approach <> None /\
  NearEarthObject_str giant = inl (OverflowError "int too large to convert to float") /\
  exists s, CloseApproach_str giant_approach = inr s.
Proof.
  split; [discriminate|]. split; [reflexivity|].
  apply (CloseApproach_str_returns_iff_linked giant_approach). discriminate.
Defined.

(** X9: [CloseApproach.__repr__] never fails on an approach with no linked
    object, which it shows as [neo=None]; on a linked approach it fails
    exactly when [repr] of the object fails, with the same error, and
    otherwise ends with the [repr] of the object. *)
Theorem CloseApproach_repr_follows_neo self :
  (neo self = None ->
   CloseApproach_repr self =
     inr ("CloseApproach(time=" ++ repr_str (time_str self) ++
          ", distance=" ++ format_f_float 2 (distance self) ++
          ", velocity=" ++ format_f_float 2 (velocity self) ++ ", neo=None)")) /\
  (forall o e, neo self = Some o ->
     (CloseApproach_repr self = inl e <-> NearEarthObject_repr o = inl e)) /\
  (forall o r, neo self = Some o -> NearEarthObject_repr o = inr r ->
     CloseApproach_repr self =
       inr ("CloseApproach(time=" ++ repr_str (time_str self) ++
            ", distance=" ++ format_f_float 2 (distance self) ++
            ", velocity=" ++ format_f_float 2 (velocity self) ++
            ", neo=" ++ r ++ ")")).
Proof.
  unfold CloseApproach_repr, neo_repr. split; [|split].
  - intros ->. reflexivity.
  - intros o e ->. destruct (NearEarthObject_repr o) as [e'|r]; cbn.
    + split; intros [= <-]; reflexivity.
    + split; discriminate.
  - intros o r -> ->. reflexivity.
Qed.

Lemma CloseApproach_repr_follows_neo_example :
  neo giant_approach = Some giant /\
  NearEarthObject_repr giant = inl (OverflowError "int too large to convert to float") /\
  CloseApproach_repr giant_approach
    = inl (OverflowError "int too large to convert to float").
Proof.
  split; [reflexivity|]. split; [reflexivity|].
  destruct (CloseApproach_repr_follows_neo giant_approach) as (_ & H & _).
  now apply (H giant).
Defined.

(** *** Quoting in the debug renderings *)

(** A printable character other than the quote and the backslash is
    copied. *)
Lemma escape_copy q c :
  printable c = true -> Ascii.eqb c q = false -> Ascii.eqb c backslash = false ->
  escape q c = String c "".
Proof.
  intros Hp Hq Hb. unfold escape. rewrite Hq, Hb, Hp. cbn [orb].
  unfold printable in Hp. remember (nat_of_ascii c) as k eqn:Ek. clear Ek.
  destruct (Nat.eqb_spec k 9) as [-> | _]; [discriminate Hp|].
  destruct (Nat.eqb_spec k 10) as [-> | _]; [discriminate Hp|].
  destruct (Nat.eqb_spec k 13) as [-> | _]; [discriminate Hp|].
  reflexivity.
Qed.

Lemma escape_all_copy q s :
  unescaped s = true -> contains q s = false -> escape_all q s = s.
Proof.
  induction s as [|c r IH]; [reflexivity|]. cbn [unescaped contains escape_all].
  intros Hu Hc.
  apply andb_prop in Hu as [Hu Hr]. apply andb_prop in Hu as [Hp Hb].
  apply orb_false_elim in Hc as [Hq Hc].
  rewrite Ascii.eqb_sym in Hq. apply negb_true_iff in Hb.
  rewrite (escape_copy q c Hp Hq Hb), (IH Hr Hc). reflexivity.
Qed.

(** [repr] of a verbatim text is the text between two quotes: single
    quotes, or double quotes when the text holds a single quote. *)
Lemma repr_str_verbatim s : verbatim s = true -> repr_str s = quoted (quote_of s) s.
Proof.
  unfold verbatim, repr_str, quote_of, quoted. intros H.
  apply andb_prop in H as [Hu Hq].
  destruct (contains quote1 s) eqn:C1; destruct (contains quote2 s) eqn:C2;
    cbn [andb negb] in *; try discriminate Hq;
    now rewrite escape_all_copy.
Qed.

(** X10: [repr] of an object constructed from a designation and a name that
    need no escape, a [float] diameter and a hazard marker: each text is
    shown between single quotes, or between double quotes when it holds an
    apostrophe, an empty one as [None]; the diameter has the format [.3f]
    and the flag reads [True] for the marker "Y" and [False] otherwise. *)
Theorem NearEarthObject_repr_of_constructed (d n : string) (f : float) (h : value) self :
  verbatim d = true -> verbatim n = true ->
  NearEarthObject_init (PyStr d) (PyStr n) (PyFloat f) h = inr self ->
  NearEarthObject_repr self =
    inr ("NearEarthObject(self.designation=" ++
         (if str_truthy d then quoted (quote_of d) d else "None") ++
         ", self.name=" ++
         (if str_truthy n then quoted (quote_of n) n else "None") ++
         ", self.diameter=" ++ format_f_float 3 f ++
         ", self.hazardous=" ++ (if eq_str h "Y" then "True" else "False") ++ ")").
Proof.
  intros Vd Vn H.
  apply NearEarthObject_init_inr in H as (_ & _ & _ & _ & ->).
  unfold NearEarthObject_repr, self_documenting, repr_bool.
  cbn [designation name diameter hazardous truthy text format_f bind ret
       Monad_either].
  assert (R : forall s, verbatim s = true ->
            repr_opt (if str_truthy s then Some s else None)
            = if str_truthy s then quoted (quote_of s) s else "None").
  { intros s V. destruct (str_truthy s); cbn [repr_opt]; [|reflexivity].
    now apply repr_str_verbatim. }
  rewrite (R d Vd), (R n Vn). flatten_text. reflexivity.
Qed.

Lemma NearEarthObject_repr_of_constructed_example :
  verbatim "1I" = true /\ verbatim "'Oumuamua" = true /\
  NearEarthObject_init (PyStr "1I") (PyStr "'Oumuamua") (PyFloat (of_ratio 2 10))
    (PyStr "N") = inr oumuamua /\
  NearEarthObject_repr oumuamua =
    inr ("NearEarthObject(self.designation='1I', self.name=" ++
         quoted quote2 "'Oumuamua" ++
         ", self.diameter=0.200, self.hazardous=False)").
Proof.
  split; [reflexivity|]. split; [reflexivity|]. split; [reflexivity|].
  rewrite (NearEarthObject_repr_of_constructed "1I" "'Oumuamua" (of_ratio 2 10)
             (PyStr "N") oumuamua); reflexivity.
Defined.

(** X11: an object constructed with the empty designation and one
    constructed with the designation "None" differ in what they store, yet
    they have the same full name and the same [str]; only [repr] tells them
    apart. *)
Theorem absent_designation_like_None n dia h o1 o2 :
  NearEarthObject_init (PyStr "") n dia h = inr o1 ->
  NearEarthObject_init (PyStr "None") n dia h = inr o2 ->
  designation o1 <> designation o2 /\
  fullname o1 = fullname o2 /\
  NearEarthObject_str o1 = NearEarthObject_str o2 /\
  (forall r1 r2, NearEarthObject_repr o1 = inr r1 -> NearEarthObject_repr o2 = inr r2 ->
     r1 <> r2).
Proof.
  intros H1 H2.
  apply NearEarthObject_init_inr in H1 as (_ & _ & _ & _ & ->).
  apply NearEarthObject_init_inr in H2 as (_ & _ & _ & _ & ->).
  split; [discriminate|]. split; [reflexivity|]. split; [reflexivity|].
  intros r1 r2. unfold NearEarthObject_repr. cbn [diameter].
  destruct (format_f 3 dia) as [e|ds]; [discriminate|].
  cbn. intros [= <-] [= <-]. discriminate.
Qed.

Lemma absent_designation_like_None_example :
  NearEarthObject_init (PyStr "") (PyStr "") (PyFloat nan) (PyStr "") = inr nameless /\
  NearEarthObject_init (PyStr "None") (PyStr "") (PyFloat nan) (PyStr "")
    = inr named_None /\
  NearEarthObject_str nameless = NearEarthObject_str named_None /\
  NearEarthObject_str named_None
    = inr "NEO None has a diameter of nan km and is not potentially hazardous.".
Proof.
  split; [reflexivity|]. split; [reflexivity|].
  destruct (absent_designation_like_None (PyStr "") (PyFloat nan) (PyStr "")
              nameless named_None eq_refl eq_refl) as (_ & _ & Hs & _).
  split; [exact Hs | reflexivity].
Defined.

(** *** Digits after the point *)

Lemma length_append (a b : string) :
  String.length (a ++ b) = (String.length a + String.length b)%nat.
Proof. induction a as [|c a IH]; cbn; [reflexivity | now rewrite IH]. Qed.

Lemma all_digits_append (a b : string) :
  all_digits (a ++ b) = all_digits a && all_digits b.
Proof.
  induction a as [|c a IH]; cbn [append all_digits]; [reflexivity|].
  now rewrite IH, andb_assoc.
Qed.

Lemma zeros_shape k : String.length (zeros k) = k /\ all_digits (zeros k) = true.
Proof. induction k as [|k [IHl IHd]]; cbn; [split; reflexivity|]. now rewrite IHl, IHd. Qed.

Lemma all_digits_uint (u : Decimal.uint) :
  all_digits (NilEmpty.string_of_uint u) = true.
Proof. induction u; cbn; trivial. Qed.

Lemma all_digits_decimal n : all_digits (decimal n) = true.
Proof.
  unfold decimal, NilZero.string_of_uint.
  destruct (N.to_uint (Z.to_N n)) eqn:E; try reflexivity;
    rewrite <- E; apply all_digits_uint.
Qed.

(** A property checked on every number below a bound holds below it. *)
Lemma checked_below (P : nat -> bool) (bound : nat) :
  forallb P (seq 0 bound) = true -> forall i, (i < bound)%nat -> P i = true.
Proof.
  intros H i Hi. rewrite forallb_forall in H. apply H. apply in_seq. lia.
Qed.

Lemma decimal_length_le (p : nat) m :
  p = 2%nat \/ p = 3%nat -> 0 <= m < 10 ^ Z.of_nat p ->
  (String.length (decimal m) <= p)%nat.
Proof.
  intros Hp Hm.
  assert (C : forall k bound, (k < bound)%nat ->
            forallb (fun i => String.length (decimal (Z.of_nat i)) <=? p)%nat
                    (seq 0 bound) = true ->
            (String.length (decimal (Z.of_nat k)) <= p)%nat).
  { intros k bound Hk F. apply Nat.leb_le.
    exact (checked_below _ bound F k Hk). }
  rewrite <- (Z2Nat.id m) by lia.
  destruct Hp as [-> | ->].
  - apply (C _ 100%nat); [|vm_compute; reflexivity].
    change (10 ^ Z.of_nat 2) with 100 in Hm. lia.
  - apply (C _ 1000%nat); [|vm_compute; reflexivity].
    change (10 ^ Z.of_nat 3) with 1000 in Hm. lia.
Qed.

(** The shape of a number written with two or three digits after the
    point. *)
Lemma fixed_shape (p : nat) n :
  p = 2%nat \/ p = 3%nat ->
  exists whole frac,
    fixed n p = whole ++ "." ++ frac /\
    whole <> "" /\ all_digits whole = true /\
    String.length frac = p /\ all_digits frac = true.
Proof.
  intros Hp.
  assert (Hb : 0 < 10 ^ Z.of_nat p) by (apply Z.pow_pos_nonneg; lia).
  pose proof (Z.mod_pos_bound n _ Hb) as Hm.
  pose proof (decimal_length_le p _ Hp Hm) as Hl.
  exists (decimal (n / 10 ^ Z.of_nat p)),
         (pad_left p (decimal (n mod 10 ^ Z.of_nat p))).
  split; [destruct Hp as [-> | ->]; reflexivity|].
  split; [destruct (decimal_head (n / 10 ^ Z.of_nat p)) as (c & r & -> & _); discriminate|].
  split; [apply all_digits_decimal|].
  unfold pad_left. rewrite length_append, all_digits_append.
  destruct (zeros_shape (p - String.length (decimal (n mod 10 ^ Z.of_nat p))))
    as [-> ->].
  split; [lia | apply all_digits_decimal].
Qed.

(** X12: a [float] diameter is shown by [str] with exactly three digits
    after the point, after a sign and at least one digit, when it is a
    number; a diameter that is not a number (the default) is shown as
    [nan], an infinite one as [inf] or [-inf], with no digits at all. *)
Theorem NearEarthObject_str_diameter_digits d n f h self :
  NearEarthObject_init d n (PyFloat f) h = inr self ->
  exists shown,
    NearEarthObject_str self =
      inr ("NEO " ++ fullname self ++ " has a diameter of " ++ shown ++
           (if hazardous self then " km and is potentially hazardous."
            else " km and is not potentially hazardous.")) /\
    match f with
    | S754_nan => shown = "nan"
    | S754_infinity s => shown = sign s ++ "inf"
    | S754_zero s | S754_finite s _ _ =>
        exists whole frac,
          shown = sign s ++ whole ++ "." ++ frac /\
          whole <> "" /\ all_digits whole = true /\
          String.length frac = 3%nat /\ all_digits frac = true
    end.
Proof.
  intros H. apply NearEarthObject_init_inr in H as (_ & _ & _ & _ & ->).
  rewrite NearEarthObject_str_format. cbn [diameter hazardous format_f].
  exists (format_f_float 3 f). split; [reflexivity|].
  destruct f as [s | s | | s m e]; cbn [format_f_float]; try reflexivity.
  - destruct (fixed_shape 3 0 (or_intror eq_refl)) as (w & fr & -> & Hw).
    now exists w, fr.
  - destruct (fixed_shape 3 (scaled m e 3) (or_intror eq_refl)) as (w & fr & -> & Hw).
    now exists w, fr.
Qed.

Lemma NearEarthObject_str_diameter_digits_example :
  NearEarthObject_init (PyStr "433") (PyStr "Eros") (PyFloat (of_ratio 1684 100))
    (PyStr "N") = inr eros /\
  exists shown,
    NearEarthObject_str eros =
      inr ("NEO " ++ fullname eros ++ " has a diameter of " ++ shown ++
           (if hazardous eros then " km and is potentially hazardous."
            else " km and is not potentially hazardous.")) /\
    exists whole frac,
      shown = sign false ++ whole ++ "." ++ frac /\
      whole <> "" /\ all_digits whole = true /\
      String.length frac = 3%nat /\ all_digits frac = true.
Proof.
  split; [reflexivity|].
  apply (NearEarthObject_str_diameter_digits
           (PyStr "433") (PyStr "Eros") (of_ratio 1684 100) (PyStr "N") eros).
  reflexivity.
Defined.

Lemma format_f_float_shown (p : nat) f :
  p = 2%nat \/ p = 3%nat -> shown_as p f (format_f_float p f).
Proof.
  intros Hp. destruct f as [s | s | | s m e]; cbn [format_f_float shown_as];
    try reflexivity.
  - destruct (fixed_shape p 0 Hp) as (w & fr & -> & Hw). now exists w, fr.
  - destruct (fixed_shape p (scaled m e p) Hp) as (w & fr & -> & Hw).
    now exists w, fr.
Qed.

(** X13: in the sentence [str] gives for a linked approach the distance and
    the velocity are each shown with exactly two digits after the point
    when they are numbers, and as [nan] (the default) or [inf] otherwise,
    each behind the text of its own expression and an equals sign. *)
Theorem CloseApproach_str_number_digits self o :
  neo self = Some o ->
  exists dist vel,
    CloseApproach_str self =
      inr ("On " ++ time_str self ++ ", '" ++ fullname o ++
           "' approaches Earth at a distance of self.distance=" ++ dist ++
           " au and a velocity of self.velocity=" ++ vel ++ " km/s.") /\
    shown_as 2 (distance self) dist /\
    shown_as 2 (velocity self) vel.
Proof.
  intros H.
  exists (format_f_float 2 (distance self)), (format_f_float 2 (velocity self)).
  split; [exact (CloseApproach_str_linked _ _ H)|].
  split; apply format_f_float_shown; now left.
Qed.

Lemma CloseApproach_str_number_digits_example :
  neo approach = Some eros /\
  exists dist vel,
    CloseApproach_str approach =
      inr ("On " ++ time_str approach ++ ", '" ++ fullname eros ++
           "' approaches Earth at a distance of self.distance=" ++ dist ++
           " au and a velocity of self.velocity=" ++ vel ++ " km/s.") /\
    shown_as 2 (distance approach) dist /\
    shown_as 2 (velocity approach) vel.
Proof.
  split; [reflexivity|].
  apply (CloseApproach_str_number_digits approach eros). reflexivity.
Defined.

(** X14: the full name does not determine the designation and the name: an
    object with designation [d] and name [n] and an object with no name
    whose designation is the text "d (n)" have the same full name and the
    same [str]. *)
Theorem fullname_not_injective (d n : string) dia h o1 o2 :
  d <> "" -> n <> "" ->
  NearEarthObject_init (PyStr d) (PyStr n) dia h = inr o1 ->
  NearEarthObject_init (PyStr (d ++ " (" ++ n ++ ")")) (PyStr "") dia h = inr o2 ->
  (designation o1 <> designation o2 /\ name o1 <> name o2) /\
  fullname o1 = fullname o2 /\
  NearEarthObject_str o1 = NearEarthObject_str o2.
Proof.
  intros Hd Hn H1 H2.
  apply str_truthy_true in Hd. apply str_truthy_true in Hn.
  apply NearEarthObject_init_inr in H1 as (_ & _ & _ & _ & ->).
  apply NearEarthObject_init_inr in H2 as (_ & _ & _ & _ & ->).
  assert (Hl : str_truthy (d ++ " (" ++ n ++ ")") = true)
    by (destruct d; [discriminate Hd | reflexivity]).
  assert (F : fullname
                {| designation := if truthy (PyStr d) then Some (text (PyStr d)) else None;
                   name := if truthy (PyStr n) then Some (text (PyStr n)) else None;
                   diameter := dia; hazardous := eq_str h "Y"; approaches := [] |}
              = fullname
                {| designation :=
                     if truthy (PyStr (d ++ " (" ++ n ++ ")"))
                     then Some (text (PyStr (d ++ " (" ++ n ++ ")"))) else None;
                   name := if truthy (PyStr "") then Some (text (PyStr "")) else None;
                   diameter := dia; hazardous := eq_str h "Y"; approaches := [] |}).
  { unfold fullname. cbn [truthy text designation name]. rewrite Hd, Hn, Hl.
    cbn. now rewrite Hn. }
  split; [|split].
  - cbn [truthy text designation name]. rewrite Hd, Hn, Hl. cbn [str_truthy].
    split; [|discriminate].
    intros [= E]. apply (f_equal String.length) in E.
    rewrite !length_append in E. cbn in E. lia.
  - exact F.
  - rewrite !NearEarthObject_str_format, F. reflexivity.
Qed.

Lemma fullname_not_injective_example :
  "2015 CD3" <> "" /\ "Bruce" <> "" /\
  NearEarthObject_init (PyStr "2015 CD3") (PyStr "Bruce") (PyFloat nan) (PyStr "Y")
    = inr bruce /\
  fullname bruce = "2015 CD3 (Bruce)" /\
  exists o2,
    NearEarthObject_init (PyStr "2015 CD3 (Bruce)") (PyStr "") (PyFloat nan) (PyStr "Y")
      = inr o2 /\
    name o2 = None /\ fullname bruce = fullname o2.
Proof.
  split; [discriminate|]. split; [discriminate|]. split; [reflexivity|].
  split; [reflexivity|]. eexists. split; [reflexivity|]. split; [reflexivity|].
  apply (fullname_not_injective "2015 CD3" "Bruce" (PyFloat nan) (PyStr "Y") bruce);
    [discriminate | discriminate | reflexivity | reflexivity].
Defined.
